(** * backend/app.py: the OpenSCAD-to-Onshape conversion pipeline

    A shallow embedding of [onshape_api_request] and [create_from_openscad]
    together with the properties of the pipeline: outcome records, the
    partial-success policy, temporary-file handling and the calls issued
    to the external collaborators.

    Conventions.
    - A Python [str] and a Python [bytes] are both modelled as [string]
      (a sequence of bytes; a text is held as its UTF-8 encoding), so
      [s.encode("utf-8")] is the identity, and what Python does character
      by character ([str.strip]) goes through [PyStr.chars].
    - A Python [int] is a [Z].
    - The world outside the process (clock, temporary directory, the
      [openscad] binary, the HTTP service) is an explicit oracle [Env];
      what the code does to it is recorded in an explicit [state]. *)

From Stdlib Require Import String Ascii List ZArith NArith Bool Lia.
From Stdlib Require Import DecimalString.
Import ListNotations.

Local Open Scope string_scope.
Local Open Scope Z_scope.

(* ===================================================================== *)
(** ** Python strings *)
(* ===================================================================== *)

Module PyStr.

(** [bool(s)] for a string: non-empty. *)
Definition truthy (s : string) : bool :=
  match s with
  | EmptyString => false
  | String _ _ => true
  end.

(** The characters of a text, given by its UTF-8 encoding: one piece of
    one to four bytes for each character, the first byte fixing how many. *)
Fixpoint chars (s : string) : list string :=
  match s with
  | EmptyString => []
  | String a r1 =>
      if (N_of_ascii a <? 192)%N then String a EmptyString :: chars r1
      else
        match r1 with
        | EmptyString => [String a EmptyString]
        | String b r2 =>
            if (N_of_ascii a <? 224)%N
            then String a (String b EmptyString) :: chars r2
            else
              match r2 with
              | EmptyString => [String a (String b EmptyString)]
              | String c r3 =>
                  if (N_of_ascii a <? 240)%N
                  then String a (String b (String c EmptyString)) :: chars r3
                  else
                    match r3 with
                    | EmptyString => [String a (String b (String c EmptyString))]
                    | String d r4 =>
                        String a (String b (String c (String d EmptyString)))
                        :: chars r4
                    end
              end
        end
  end.

(** A continuation byte [10xxxxxx] and the six bits it carries. *)
Definition continuation (b : ascii) : bool :=
  ((128 <=? N_of_ascii b) && (N_of_ascii b <? 192))%N.

Definition low6 (b : ascii) : N := (N_of_ascii b - 128)%N.

(** [ord(ch)] for one character: the code point its bytes encode, and
    U+FFFD for what is not the encoding of a character (a stray or missing
    continuation byte, an overlong form, a surrogate, a value past
    U+10FFFF). *)
Definition ord (ch : string) : N :=
  match ch with
  | String a EmptyString =>
      if N_of_ascii a <? 128 then N_of_ascii a else 65533
  | String a (String b EmptyString) =>
      if (194 <=? N_of_ascii a) && (N_of_ascii a <? 224) && continuation b
      then (N_of_ascii a - 192) * 64 + low6 b
      else 65533
  | String a (String b (String c EmptyString)) =>
      let n := (N_of_ascii a - 224) * 4096 + low6 b * 64 + low6 c in
      if (224 <=? N_of_ascii a) && (N_of_ascii a <? 240)
         && continuation b && continuation c
         && (2048 <=? n) && negb ((55296 <=? n) && (n <=? 57343))
      then n
      else 65533
  | String a (String b (String c (String d EmptyString))) =>
      let n := (N_of_ascii a - 240) * 262144 + low6 b * 4096
               + low6 c * 64 + low6 d in
      if (240 <=? N_of_ascii a) && (N_of_ascii a <? 248)
         && continuation b && continuation c && continuation d
         && (65536 <=? n) && (n <=? 1114111)
      then n
      else 65533
  | _ => 65533
  end%N.

(** [ch.isspace()] for one character, as [str.strip] reads it: TAB, LF, VT,
    FF, CR, the separators FS, GS, RS, US, the space, and the white space
    of Unicode past ASCII: U+0085, U+00A0, U+1680, U+2000 to U+200A,
    U+2028, U+2029, U+202F, U+205F and U+3000. *)
Definition isspace (ch : string) : bool :=
  let n := ord ch in
  ((9 <=? n) && (n <=? 13) || (28 <=? n) && (n <=? 32)
   || (n =? 133) || (n =? 160) || (n =? 5760)
   || (8192 <=? n) && (n <=? 8202)
   || (n =? 8232) || (n =? 8233) || (n =? 8239) || (n =? 8287)
   || (n =? 12288))%N.

(** [s.lstrip()] on the characters. *)
Fixpoint lstrip (l : list string) : list string :=
  match l with
  | [] => []
  | ch :: l' => if isspace ch then lstrip l' else l
  end.

(** [s.rstrip()] on the characters: a trailing character goes when it is
    a space and everything after it has gone. *)
Fixpoint rstrip (l : list string) : list string :=
  match l with
  | [] => []
  | ch :: l' =>
      match rstrip l' with
      | [] => if isspace ch then [] else [ch]
      | r => ch :: r
      end
  end.

(** [s.strip()]. *)
Definition strip (s : string) : string :=
  String.concat "" (rstrip (lstrip (chars s))).

(** Every character of [s] is a space (true of the empty string). *)
Definition all_space (s : string) : bool := forallb isspace (chars s).

(** [str(n)] for an integer. *)
Definition of_int (n : Z) : string := NilZero.string_of_int (Z.to_int n).

(** One decimal digit, [0 <= d <= 9]. *)
Definition digit (d : Z) : ascii := ascii_of_N (Z.to_N (48 + d)).

(** ["%02d"], ["%04d"] and ["%06d"] on numbers that fit. *)
Definition pad2 (n : Z) : string :=
  String (digit (n / 10)) (String (digit (n mod 10)) EmptyString).

Definition pad4 (n : Z) : string :=
  String (digit (n / 1000)) (String (digit (n / 100 mod 10)) (pad2 (n mod 100))).

Definition pad6 (n : Z) : string :=
  String (digit (n / 100000)) (String (digit (n / 10000 mod 10)) (pad4 (n mod 10000))).

(** The characters [urllib.parse.quote] never escapes, plus its default
    [safe="/"]. *)
Definition quote_safe (c : ascii) : bool :=
  let n := N_of_ascii c in
  ((48 <=? n) && (n <=? 57) || (65 <=? n) && (n <=? 90)
   || (97 <=? n) && (n <=? 122)
   || (n =? 95) || (n =? 46) || (n =? 45) || (n =? 126) || (n =? 47))%N.

Definition hex_digit (n : N) : ascii :=
  if (n <? 10)%N then ascii_of_N (48 + n) else ascii_of_N (55 + n).

(** [requests.utils.quote(s)]. *)
Fixpoint quote (s : string) : string :=
  match s with
  | EmptyString => EmptyString
  | String c s' =>
      if quote_safe c then String c (quote s')
      else
        let n := N_of_ascii c in
        String "%" (String (hex_digit (n / 16)) (String (hex_digit (n mod 16)) (quote s')))
  end.

End PyStr.

(* ===================================================================== *)
(** ** [datetime.datetime] and [isoformat] *)
(* ===================================================================== *)

Record datetime : Type := mkDatetime {
  year : Z;
  month : Z;
  day : Z;
  hour : Z;
  minute : Z;
  second : Z;
  microsecond : Z
}.

(** The ranges Python enforces on every [datetime] object. *)
Definition valid_datetime (t : datetime) : Prop :=
  1 <= year t <= 9999 /\ 1 <= month t <= 12 /\ 1 <= day t <= 31 /\
  0 <= hour t <= 23 /\ 0 <= minute t <= 59 /\ 0 <= second t <= 59 /\
  0 <= microsecond t <= 999999.

(** [t.isoformat()] for a naive datetime: [YYYY-MM-DDTHH:MM:SS], followed
    by [.ffffff] when the microsecond is not zero. *)
Definition isoformat (t : datetime) : string :=
  PyStr.pad4 (year t) ++ "-" ++ PyStr.pad2 (month t) ++ "-" ++ PyStr.pad2 (day t)
  ++ "T" ++ PyStr.pad2 (hour t) ++ ":" ++ PyStr.pad2 (minute t) ++ ":"
  ++ PyStr.pad2 (second t)
  ++ (if microsecond t =? 0 then "" else "." ++ PyStr.pad6 (microsecond t)).

(* ===================================================================== *)
(** ** Exceptions *)
(* ===================================================================== *)

(** The exceptions that can travel through the pipeline. All of them are
    subclasses of [Exception]. The two of [subprocess] carry the command
    they were raised for, as [subprocess.run] sets it; the ones the
    environment raises carry the text Python shows for them. *)
Inductive exn : Type :=
| HTTPException (status_code : Z) (detail : string)   (* fastapi *)
| CalledProcessError (cmd : list string) (returncode : Z) (stderr : string)
                                                        (* subprocess *)
| TimeoutExpired (cmd : list string) (timeout : Z)      (* subprocess *)
| KeyError (key : string)                               (* dict lookup *)
| OSError (text : string)                               (* file system *)
| RequestException (text : string)                      (* requests: transport *)
| JSONDecodeError (text : string).                      (* resp.json() *)

Definition is_Exception (e : exn) : bool := true.

Definition is_CalledProcessError (e : exn) : bool :=
  match e with CalledProcessError _ _ _ => true | _ => false end.

Definition is_OSError (e : exn) : bool :=
  match e with OSError _ => true | _ => false end.

(* ===================================================================== *)
(** ** JSON *)
(* ===================================================================== *)

(** A value placed in a request body. *)
Inductive jvalue : Type :=
| JString (s : string)
| JBool (b : bool).

(** A parsed response body: a JSON object. The members the pipeline reads
    are identifiers (strings) and one nested object, so an object is given
    by its string-valued members and its object-valued members. *)
#[warnings="-register-all"] Inductive json : Type :=
| JObject (strings : list (string * string)) (objects : list (string * json)).

Definition empty_json : json := JObject [] [].

Fixpoint assoc {A : Type} (key : string) (l : list (string * A)) : option A :=
  match l with
  | [] => None
  | (k, v) :: l' => if String.eqb k key then Some v else assoc key l'
  end.

(** [j[key]] read as a string; a missing key raises [KeyError]. *)
Definition get_string (j : json) (key : string) : exn + string :=
  match j with
  | JObject strings _ =>
      match assoc key strings with
      | Some s => inr s
      | None => inl (KeyError key)
      end
  end.

(** [j[key]] read as an object; a missing key raises [KeyError]. *)
Definition get_object (j : json) (key : string) : exn + json :=
  match j with
  | JObject _ objects =>
      match assoc key objects with
      | Some o => inr o
      | None => inl (KeyError key)
      end
  end.

(* ===================================================================== *)
(** ** HTTP exchange *)
(* ===================================================================== *)

Inductive body : Type :=
| JsonBody (members : list (string * jvalue))                       (* json=... *)
| FilesBody (field file_name content content_type : string).       (* files=... *)

Record Request : Type := mkRequest {
  req_method : string;
  req_url : string;
  req_headers : list (string * string);
  req_body : body
}.

(** What the code looks at in a [requests.Response]: [ok], [status_code],
    [text] (the decoded body, held as its UTF-8 encoding) and the result of
    [json()]. *)
Record Response : Type := mkResponse {
  ok : bool;
  resp_status_code : Z;
  text : string;
  resp_json : exn + json
}.

(* ===================================================================== *)
(** ** Request and response models *)
(* ===================================================================== *)

Record CreateFromOpenSCADRequest : Type := mkPayload {
  openscad_code : string;
  document_name : option string
}.

Record CreateFromOpenSCADResponse : Type := mkOutcome {
  success : bool;
  docId : option string;
  docName : option string;
  url : option string;
  message : option string;
  error : option string
}.

(* ===================================================================== *)
(** ** The environment and the state *)
(* ===================================================================== *)

(** How a run of [subprocess.run(..., timeout=...)] ends. *)
Inductive run_result : Type :=
| Exited (returncode : Z) (stderr : string)
| TimedOut
| RunFailed (e : exn).          (* the binary could not be started *)

(** The answers of the outside world. *)
Record Env : Type := mkEnv {
  utcnow : datetime;                         (* datetime.utcnow() *)
  scad_tmp : exn + string;                   (* NamedTemporaryFile(suffix=".scad") *)
  scad_write : string -> option exn;         (* scad_file.write(data) *)
  stl_tmp : exn + string;                    (* NamedTemporaryFile(suffix=".stl") *)
  openscad : list string -> run_result;      (* the compiler process *)
  stl_read : string -> exn + string;         (* open(path, "rb").read() *)
  os_remove : string -> option string;       (* Some t: os.remove raises OSError(t) *)
  http : Request -> exn + Response           (* requests.request *)
}.

Inductive event : Type :=
| Subprocess (argv : list string) (timeout : Z)
| Http (r : Request).

(** What a run has done so far: the temporary files that exist, the calls
    made to the collaborators in order, and the local variable [doc_id] of
    [create_from_openscad], which its exception handler reads. *)
Record state : Type := mkState {
  files : list string;
  calls : list event;
  doc_id : option string
}.

Definition initial : state := mkState [] [] None.

Definition is_http (e : event) : bool :=
  match e with Http _ => true | Subprocess _ _ => false end.

Definition is_subprocess (e : event) : bool :=
  match e with Subprocess _ _ => true | Http _ => false end.

(** The Document Client calls and the compiler runs of a trace. *)
Definition http_calls (s : state) : list event := filter is_http (calls s).
Definition compiler_calls (s : state) : list event := filter is_subprocess (calls s).

(* ===================================================================== *)
(** ** State and exception monad *)
(* ===================================================================== *)

(** A computation reads and changes the state and either returns or
    raises; the state survives a raise. *)
Definition M (A : Type) : Type := state -> (exn + A) * state.

Definition ret {A : Type} (a : A) : M A := fun s => (inr a, s).

Definition raise {A : Type} (e : exn) : M A := fun s => (inl e, s).

Definition bind {A B : Type} (m : M A) (k : A -> M B) : M B :=
  fun s =>
    match m s with
    | (inr a, s') => k a s'
    | (inl e, s') => (inl e, s')
    end.

(** [try: body / except cls as e: handler e]. *)
Definition try_except {A : Type} (body : M A) (cls : exn -> bool) (handler : exn -> M A) : M A :=
  fun s =>
    match body s with
    | (inr a, s') => (inr a, s')
    | (inl e, s') => if cls e then handler e s' else (inl e, s')
    end.

(** Lift the result of an oracle. *)
Definition lift {A : Type} (r : exn + A) : M A := fun s => (r, s).

Definition get_doc_id : M (option string) := fun s => (inr (doc_id s), s).

Definition set_doc_id (d : option string) : M unit :=
  fun s => (inr tt, mkState (files s) (calls s) d).

Definition log (e : event) : M unit :=
  fun s => (inr tt, mkState (files s) (calls s ++ [e]) (doc_id s)).

Definition create_file (path : string) : M unit :=
  fun s => (inr tt, mkState (path :: files s) (calls s) (doc_id s)).

Definition delete_file (path : string) : M unit :=
  fun s => (inr tt, mkState (List.remove string_dec path (files s)) (calls s) (doc_id s)).

Declare Scope py_scope.
Delimit Scope py_scope with py.
Notation "x <- m ;; k" := (bind m (fun x => k))
  (at level 61, m at next level, right associativity) : py_scope.
Notation "m ;; k" := (bind m (fun _ => k))
  (at level 61, right associativity) : py_scope.
Local Open Scope py_scope.

(* ===================================================================== *)
(** ** The program *)
(* ===================================================================== *)

Definition LF : string := String "010" EmptyString.

(** U+2705 and U+1F517 in UTF-8. *)
Definition CHECK_MARK : string := String "226" (String "156" (String "133" EmptyString)).
Definition LINK : string :=
  String "240" (String "159" (String "148" (String "151" EmptyString))).

(** [x or y] on an optional string: [x] when it is a non-empty string. *)
Definition or_else (x : option string) (y : string) : string :=
  match x with
  | Some s => if PyStr.truthy s then s else y
  | None => y
  end.

(** [payload.document_name or f"AI Model {utcnow().isoformat()}"]. *)
Definition doc_name_of (payload : CreateFromOpenSCADRequest) (now : datetime) : string :=
  or_else (document_name payload) ("AI Model " ++ isoformat now).

(** [f"https://cad.onshape.com/documents/{doc_id}"]. *)
Definition document_url (doc_id : string) : string :=
  "https://cad.onshape.com" ++ "/documents/" ++ doc_id.

Definition message_tail (doc_name doc_id url : string) : string :=
  "Successfully created 3D model in Onshape!" ++ LF ++ LF
  ++ "Document: " ++ doc_name ++ LF ++ "ID: " ++ doc_id ++ LF ++ LF
  ++ LINK ++ " View your model: " ++ url.

(** The record built at the end of the [try] body. *)
Definition success_response (doc_id doc_name : string) : CreateFromOpenSCADResponse :=
  let url := document_url doc_id in
  let message := CHECK_MARK ++ " " ++ message_tail doc_name doc_id url in
  mkOutcome true (Some doc_id) (Some doc_name) (Some url) (Some message) None.

(** The record built by the handler when [doc_id] is set. *)
Definition partial_success_response (doc_id doc_name : string) : CreateFromOpenSCADResponse :=
  let url := document_url doc_id in
  let message := message_tail doc_name doc_id url in
  mkOutcome true (Some doc_id) (Some doc_name) (Some url) (Some message) None.

(** The record built by the handler otherwise. *)
Definition failure_response (detail : string) : CreateFromOpenSCADResponse :=
  mkOutcome false None None None None (Some detail).

Section Program.

(** Configuration read at import time. *)
Variable ONSHAPE_API_URL : string.
Variable auth_header : string.

(** [str(e)]; the text of the library exceptions is the libraries'. *)
Variable py_str : exn -> string.

(** [b.decode("utf-8", errors="ignore")]. *)
Variable decode_ignore : string -> string.

Variable env : Env.

(** The request a call sends: [url], [headers] and the caller's keyword
    arguments. *)
Definition request_of (method path : string) (kwargs : body) : Request :=
  let url := ONSHAPE_API_URL ++ path in
  let headers := [("Authorization", auth_header); ("Accept", "application/json")] in
  mkRequest method url headers kwargs.

Definition onshape_api_request (method path : string) (kwargs : body) : M json :=
  log (Http (request_of method path kwargs)) ;;
  resp <- lift (http env (request_of method path kwargs)) ;;
  if negb (ok resp) then
    raise (HTTPException (resp_status_code resp)
             ("Onshape API error " ++ PyStr.of_int (resp_status_code resp)
              ++ ": " ++ text resp))
  else if PyStr.truthy (PyStr.strip (text resp)) then lift (resp_json resp)
  else ret empty_json.

(** [with tempfile.NamedTemporaryFile(suffix=..., delete=False) as f:
    path = f.name]. *)
Definition NamedTemporaryFile (r : exn + string) : M string :=
  path <- lift r ;;
  create_file path ;;
  ret path.

Definition write (r : option exn) : M unit :=
  match r with
  | Some e => raise e
  | None => ret tt
  end.

(** [subprocess.run(argv, check=True, capture_output=True, timeout=t)]. *)
Definition subprocess_run (argv : list string) (timeout : Z) : M unit :=
  log (Subprocess argv timeout) ;;
  match openscad env argv with
  | Exited returncode stderr =>
      if returncode =? 0 then ret tt
      else raise (CalledProcessError argv returncode stderr)
  | TimedOut => raise (TimeoutExpired argv timeout)
  | RunFailed e => raise e
  end.

Definition remove (path : string) : M unit :=
  match os_remove env path with
  | Some t => raise (OSError t)
  | None => delete_file path
  end.

(** Lines 85-96: run the compiler, turning a non-zero exit into an
    [HTTPException]. *)
Definition run_openscad (stl_path scad_path : string) : M unit :=
  try_except
    (subprocess_run ["openscad"; "-o"; stl_path; scad_path] 30)
    is_CalledProcessError
    (fun e =>
       match e with
       | CalledProcessError _ _ stderr =>
           raise (HTTPException 500 ("OpenSCAD error: " ++ decode_ignore stderr))
       | _ => raise e
       end).

(** Lines 102-107: both removals under one [except OSError: pass]. *)
Definition clean_up (scad_path stl_path : string) : M unit :=
  try_except
    (remove scad_path ;; remove stl_path)
    is_OSError
    (fun _ => ret tt).

(** Lines 76-107: write the source, run the compiler, read the mesh,
    remove both files. *)
Definition compile_stage (openscad_code : string) : M string :=
  scad_path <- NamedTemporaryFile (scad_tmp env) ;;
  write (scad_write env openscad_code) ;;
  stl_path <- NamedTemporaryFile (stl_tmp env) ;;
  run_openscad stl_path scad_path ;;
  stl_bytes <- lift (stl_read env stl_path) ;;
  clean_up scad_path stl_path ;;
  ret stl_bytes.

Definition create_kwargs (doc_name : string) : body :=
  JsonBody [("name", JString doc_name); ("public", JBool false)].

Definition upload_path (doc_id workspace_id file_name : string) : string :=
  "/blobelements/d/" ++ doc_id ++ "/w/" ++ workspace_id
  ++ "?encodedFilename=" ++ PyStr.quote file_name.

Definition upload_kwargs (file_name stl_bytes : string) : body :=
  FilesBody "file" file_name stl_bytes "application/octet-stream".

Definition import_path (doc_id workspace_id : string) : string :=
  "/partstudios/d/" ++ doc_id ++ "/w/" ++ workspace_id ++ "/import".

Definition import_kwargs (blob_id : string) : body :=
  JsonBody [("format", JString "STL"); ("blobElementId", JString blob_id);
            ("importIntoPartStudio", JBool true);
            ("createNewPartStudio", JBool false)].

(** Lines 118-154: what follows the assignment of [doc_id]. *)
Definition after_commit (doc : json) (doc_id doc_name stl_bytes : string)
  : M CreateFromOpenSCADResponse :=
  defaultWorkspace <- lift (get_object doc "defaultWorkspace") ;;
  workspace_id <- lift (get_string defaultWorkspace "id") ;;
  let file_name := "model.stl" in
  blob <- onshape_api_request "POST" (upload_path doc_id workspace_id file_name)
            (upload_kwargs file_name stl_bytes) ;;
  blob_id <- lift (get_string blob "id") ;;
  onshape_api_request "POST" (import_path doc_id workspace_id) (import_kwargs blob_id) ;;
  ret (success_response doc_id doc_name).

(** Lines 76-154: the body of the [try]. *)
Definition try_body (openscad_code doc_name : string) : M CreateFromOpenSCADResponse :=
  stl_bytes <- compile_stage openscad_code ;;
  doc <- onshape_api_request "POST" "/documents" (create_kwargs doc_name) ;;
  doc_id <- lift (get_string doc "id") ;;
  set_doc_id (Some doc_id) ;;
  after_commit doc doc_id doc_name stl_bytes.

(** Lines 156-175: the handler of [except Exception as e]; [if doc_id:]
    holds when the variable is a non-empty string. *)
Definition handler (doc_name : string) (e : exn) : M CreateFromOpenSCADResponse :=
  doc_id <- get_doc_id ;;
  match doc_id with
  | Some d =>
      if PyStr.truthy d then ret (partial_success_response d doc_name)
      else ret (failure_response (py_str e))
  | None => ret (failure_response (py_str e))
  end.

Definition create_from_openscad (payload : CreateFromOpenSCADRequest)
  : M CreateFromOpenSCADResponse :=
  let openscad_code := openscad_code payload in
  let doc_name := doc_name_of payload (utcnow env) in
  if negb (PyStr.truthy openscad_code) then
    raise (HTTPException 400 "openscad_code is required")
  else
    set_doc_id None ;;
    try_except (try_body openscad_code doc_name) is_Exception (handler doc_name).

(** The outcome of one Document Client call, apart from the trace. *)
Definition api_result (method path : string) (kwargs : body) : exn + json :=
  fst (onshape_api_request method path kwargs initial).

(** The outcome of the compiler stage of one request. *)
Definition compile_result (openscad_code : string) : exn + string :=
  fst (compile_stage openscad_code initial).

(** The state the compiler stage leaves behind. *)
Definition after_compile (openscad_code : string) : state :=
  snd (compile_stage openscad_code initial).

(** The compiler run on [argv] fails, and [e] is what the [try] body raises
    for it: a non-zero exit is re-raised as an [HTTPException], a timeout
    travels as it is. *)
Inductive compiler_fails (argv : list string) : exn -> Prop :=
| nonzero_exit (returncode : Z) (stderr : string) :
    openscad env argv = Exited returncode stderr ->
    returncode <> 0 ->
    compiler_fails argv (HTTPException 500 ("OpenSCAD error: " ++ decode_ignore stderr))
| timed_out :
    openscad env argv = TimedOut ->
    compiler_fails argv (TimeoutExpired argv 30).

(** A step that follows the assignment of [doc_id] raises [e]: reading the
    workspace out of the created document, the upload, reading the blob
    identifier, or the import. *)
Inductive raises_after_commit (doc : json) (doc_id stl_bytes : string) : exn -> Prop :=
| workspace_missing (e : exn) :
    get_object doc "defaultWorkspace" = inl e ->
    raises_after_commit doc doc_id stl_bytes e
| workspace_id_missing (ws : json) (e : exn) :
    get_object doc "defaultWorkspace" = inr ws ->
    get_string ws "id" = inl e ->
    raises_after_commit doc doc_id stl_bytes e
| upload_raises (ws : json) (w : string) (e : exn) :
    get_object doc "defaultWorkspace" = inr ws ->
    get_string ws "id" = inr w ->
    api_result "POST" (upload_path doc_id w "model.stl")
      (upload_kwargs "model.stl" stl_bytes) = inl e ->
    raises_after_commit doc doc_id stl_bytes e
| blob_id_missing (ws : json) (w : string) (blob : json) (e : exn) :
    get_object doc "defaultWorkspace" = inr ws ->
    get_string ws "id" = inr w ->
    api_result "POST" (upload_path doc_id w "model.stl")
      (upload_kwargs "model.stl" stl_bytes) = inr blob ->
    get_string blob "id" = inl e ->
    raises_after_commit doc doc_id stl_bytes e
| import_raises (ws : json) (w : string) (blob : json) (b : string) (e : exn) :
    get_object doc "defaultWorkspace" = inr ws ->
    get_string ws "id" = inr w ->
    api_result "POST" (upload_path doc_id w "model.stl")
      (upload_kwargs "model.stl" stl_bytes) = inr blob ->
    get_string blob "id" = inr b ->
    api_result "POST" (import_path doc_id w) (import_kwargs b) = inl e ->
    raises_after_commit doc doc_id stl_bytes e.

(** One request, from a fresh state. *)
Definition run (payload : CreateFromOpenSCADRequest)
  : (exn + CreateFromOpenSCADResponse) * state :=
  create_from_openscad payload initial.

End Program.

(* ===================================================================== *)
(** ** The paths through a request *)
(* ===================================================================== *)

(** The state after the remote calls [reqs] have been made from [s], with
    [doc_id] holding [d]. *)
Definition sent (reqs : list Request) (s : state) (d : option string) : state :=
  mkState (files s) (calls s ++ map Http reqs) d.

Section Paths.

Variable ONSHAPE_API_URL : string.
Variable auth_header : string.
Variable py_str : exn -> string.
Variable decode_ignore : string -> string.
Variable env : Env.

(** The createDocument request of a request. *)
Definition create_request (payload : CreateFromOpenSCADRequest) : Request :=
  request_of ONSHAPE_API_URL auth_header "POST" "/documents"
    (create_kwargs (doc_name_of payload (utcnow env))).

Definition upload_request (d w stl_bytes : string) : Request :=
  request_of ONSHAPE_API_URL auth_header "POST" (upload_path d w "model.stl")
    (upload_kwargs "model.stl" stl_bytes).

Definition import_request (d w b : string) : Request :=
  request_of ONSHAPE_API_URL auth_header "POST" (import_path d w) (import_kwargs b).

(** The ways one request can go, each with its outcome and final state:
    rejected by validation; stopped in the compiler stage; stopped by
    createDocument or by the lookup of its [id]; stopped after [doc_id] was
    assigned, before or after the upload or after the import; or run to the
    end. *)
Inductive run_path (payload : CreateFromOpenSCADRequest)
  : (exn + CreateFromOpenSCADResponse) * state -> Prop :=
| path_rejected :
    openscad_code payload = "" ->
    run_path payload (inl (HTTPException 400 "openscad_code is required"), initial)
| path_compile_error (e : exn) :
    openscad_code payload <> "" ->
    compile_result decode_ignore env (openscad_code payload) = inl e ->
    run_path payload
      (inr (failure_response (py_str e)),
       after_compile decode_ignore env (openscad_code payload))
| path_create_error (stl_bytes : string) (e : exn) :
    openscad_code payload <> "" ->
    compile_result decode_ignore env (openscad_code payload) = inr stl_bytes ->
    (api_result ONSHAPE_API_URL auth_header env "POST" "/documents"
       (create_kwargs (doc_name_of payload (utcnow env))) = inl e
     \/ exists doc,
         api_result ONSHAPE_API_URL auth_header env "POST" "/documents"
           (create_kwargs (doc_name_of payload (utcnow env))) = inr doc
         /\ get_string doc "id" = inl e) ->
    run_path payload
      (inr (failure_response (py_str e)),
       sent [create_request payload]
         (after_compile decode_ignore env (openscad_code payload)) None)
| path_raise_after_commit
    (stl_bytes : string) (doc : json) (d : string) (e : exn) (later : list Request) :
    openscad_code payload <> "" ->
    compile_result decode_ignore env (openscad_code payload) = inr stl_bytes ->
    api_result ONSHAPE_API_URL auth_header env "POST" "/documents"
      (create_kwargs (doc_name_of payload (utcnow env))) = inr doc ->
    get_string doc "id" = inr d ->
    raises_after_commit ONSHAPE_API_URL auth_header env doc d stl_bytes e ->
    (later = []
     \/ (exists w, later = [upload_request d w stl_bytes])
     \/ (exists w b, later = [upload_request d w stl_bytes; import_request d w b])) ->
    run_path payload
      (inr (if PyStr.truthy d
            then partial_success_response d (doc_name_of payload (utcnow env))
            else failure_response (py_str e)),
       sent (create_request payload :: later)
         (after_compile decode_ignore env (openscad_code payload)) (Some d))
| path_complete (stl_bytes : string) (doc ws blob j : json) (d w b : string) :
    openscad_code payload <> "" ->
    compile_result decode_ignore env (openscad_code payload) = inr stl_bytes ->
    api_result ONSHAPE_API_URL auth_header env "POST" "/documents"
      (create_kwargs (doc_name_of payload (utcnow env))) = inr doc ->
    get_string doc "id" = inr d ->
    get_object doc "defaultWorkspace" = inr ws ->
    get_string ws "id" = inr w ->
    api_result ONSHAPE_API_URL auth_header env "POST" (upload_path d w "model.stl")
      (upload_kwargs "model.stl" stl_bytes) = inr blob ->
    get_string blob "id" = inr b ->
    api_result ONSHAPE_API_URL auth_header env "POST" (import_path d w)
      (import_kwargs b) = inr j ->
    run_path payload
      (inr (success_response d (doc_name_of payload (utcnow env))),
       sent [create_request payload; upload_request d w stl_bytes; import_request d w b]
         (after_compile decode_ignore env (openscad_code payload)) (Some d)).

End Paths.

(* ===================================================================== *)
(** ** Predicates on outcomes and traces *)
(* ===================================================================== *)

Definition populated (x : option string) : Prop := x <> None.
Definition absent (x : option string) : Prop := x = None.

(** The shape of an outcome record. *)
Definition well_formed (r : CreateFromOpenSCADResponse) : Prop :=
  if success r then
    populated (docId r) /\ populated (docName r) /\ populated (url r)
    /\ populated (message r) /\ absent (error r)
  else
    populated (error r) /\ absent (docId r) /\ absent (docName r)
    /\ absent (url r) /\ absent (message r).

(** An event that is not an HTTP exchange, or is a POST. *)
Definition is_post (e : event) : bool :=
  match e with
  | Http r => String.eqb (req_method r) "POST"
  | Subprocess _ _ => true
  end.

(** An event that asks the remote API to delete something. *)
Definition is_deletion (e : event) : bool :=
  match e with
  | Http r => String.eqb (req_method r) "DELETE"
  | Subprocess _ _ => false
  end.

Definition posts_only (s : state) : Prop :=
  Forall (fun e => is_post e = true) (calls s).

(** A computation that keeps an invariant of the state, however it ends. *)
Definition preserves {A : Type} (P : state -> Prop) (m : M A) : Prop :=
  forall s, P s -> P (snd (m s)).

(** [l] is the beginning of [full]. *)
Definition initial_segment {A : Type} (l full : list A) : Prop :=
  exists rest, full = (l ++ rest)%list.

(** A call to the remote API goes to a path under [api_url] and carries the
    credential header and the JSON [Accept] header, and nothing else. *)
Definition carries_credentials (api_url auth : string) (e : event) : Prop :=
  match e with
  | Http r =>
      req_headers r = [("Authorization", auth); ("Accept", "application/json")]
      /\ exists path, req_url r = api_url ++ path
  | Subprocess _ _ => True
  end.

(* ===================================================================== *)
(** ** Start-up configuration (lines 12-25) *)
(* ===================================================================== *)

Module Base64.

Definition alphabet : string :=
  "ABCDEFGHIJKLMNOPQRSTUVWXYZabcdefghijklmnopqrstuvwxyz0123456789+/".

(** The character of a six-bit value. *)
Definition sextet (n : N) : ascii :=
  match String.get (N.to_nat n) alphabet with
  | Some c => c
  | None => "="%char
  end.

(** The four characters of a group of one, two or three bytes. *)
Definition group1 (a : N) : string :=
  String (sextet (a / 4)) (String (sextet (a mod 4 * 16)) "==").

Definition group2 (a b : N) : string :=
  String (sextet (a / 4)) (String (sextet (a mod 4 * 16 + b / 16))
    (String (sextet (b mod 16 * 4)) "=")).

Definition group3 (a b c : N) (rest : string) : string :=
  String (sextet (a / 4)) (String (sextet (a mod 4 * 16 + b / 16))
    (String (sextet (b mod 16 * 4 + c / 64)) (String (sextet (c mod 64)) rest))).

(** [base64.b64encode(s)]. *)
Fixpoint b64encode (s : string) : string :=
  match s with
  | EmptyString => EmptyString
  | String a EmptyString => group1 (N_of_ascii a)
  | String a (String b EmptyString) => group2 (N_of_ascii a) (N_of_ascii b)
  | String a (String b (String c rest)) =>
      group3 (N_of_ascii a) (N_of_ascii b) (N_of_ascii c) (b64encode rest)
  end.

(** The place of a character in a string. *)
Fixpoint position (c : ascii) (s : string) : option nat :=
  match s with
  | EmptyString => None
  | String c' s' => if Ascii.eqb c' c then Some 0%nat else option_map S (position c s')
  end.

(** No other string has the encoding of [s]. *)
Definition separates (s : string) : Prop :=
  forall s2, b64encode s = b64encode s2 -> s = s2.

End Base64.

(** A string without a colon. *)
Fixpoint colon_free (s : string) : bool :=
  match s with
  | EmptyString => true
  | String c s' => negb (Ascii.eqb c ":") && colon_free s'
  end.

Inductive startup_error : Type :=
| RuntimeError (text : string).

Record Config : Type := mkConfig {
  cfg_api_url : string;
  cfg_auth_header : string
}.

Definition DEFAULT_API_URL : string := "https://cad.onshape.com/api/v12".

(** [os.getenv(name, default)] on the process environment, after
    [load_dotenv()]. *)
Definition getenv (environ : string -> option string) (name default : string) : string :=
  match environ name with
  | Some v => v
  | None => default
  end.

(** [not x] for the result of [os.getenv(name)]. *)
Definition unset (x : option string) : bool :=
  match x with
  | Some v => negb (PyStr.truthy v)
  | None => true
  end.

(** The module-level statements: read the three variables, refuse to start
    without both keys, build the credential header once. *)
Definition load_config (environ : string -> option string) : startup_error + Config :=
  let api_url := getenv environ "ONSHAPE_API_URL" DEFAULT_API_URL in
  let access_key := environ "ONSHAPE_ACCESS_KEY" in
  let secret_key := environ "ONSHAPE_SECRET_KEY" in
  if unset access_key || unset secret_key then
    inl (RuntimeError "ONSHAPE_ACCESS_KEY and ONSHAPE_SECRET_KEY must be set in env")
  else
    match access_key, secret_key with
    | Some a, Some k =>
        inr (mkConfig api_url ("Basic " ++ Base64.b64encode (a ++ ":" ++ k)))
    | _, _ =>
        inl (RuntimeError "ONSHAPE_ACCESS_KEY and ONSHAPE_SECRET_KEY must be set in env")
    end.

(** The application: the module is loaded once, then requests are served
    with the configuration it read. *)
Definition serve (environ : string -> option string) (py_str : exn -> string)
  (decode_ignore : string -> string) (env : Env) (payload : CreateFromOpenSCADRequest)
  : startup_error + (exn + CreateFromOpenSCADResponse) * state :=
  match load_config environ with
  | inl e => inl e
  | inr c => inr (run (cfg_api_url c) (cfg_auth_header c) py_str decode_ignore env payload)
  end.

(* ===================================================================== *)
(** ** Sample collaborators *)
(* ===================================================================== *)

Module Sample.

Fixpoint contains (c : ascii) (s : string) : bool :=
  match s with
  | EmptyString => false
  | String c' s' => (c =? c')%char || contains c s'
  end.

Definition lower_hex (n : N) : ascii :=
  if (n <? 10)%N then ascii_of_N (48 + n) else ascii_of_N (87 + n).

(** The inside of [repr(s)] between quotes [q]: the quote and the backslash
    are escaped, TAB, LF and CR are written [\t], [\n], [\r], and the other
    control characters of ASCII in hexadecimal. The bytes past ASCII are
    kept, as Python keeps the printable characters they encode. *)
Fixpoint repr_body (q : ascii) (s : string) : string :=
  match s with
  | EmptyString => EmptyString
  | String c s' =>
      let n := N_of_ascii c in
      (if (c =? q)%char || (n =? 92)%N then String "092" (String c EmptyString)
       else if (n =? 9)%N then String "092" "t"
       else if (n =? 10)%N then String "092" "n"
       else if (n =? 13)%N then String "092" "r"
       else if (n <? 32)%N || (n =? 127)%N
            then String "092" (String "x" (String (lower_hex (n / 16))
                                             (String (lower_hex (n mod 16)) EmptyString)))
            else String c EmptyString)
      ++ repr_body q s'
  end.

(** [repr(s)] for a string: single quotes, or double quotes when [s] holds
    a single quote and no double quote. *)
Definition repr_str (s : string) : string :=
  let q := (if contains "039" s && negb (contains "034" s) then "034" else "039")%char in
  String q (repr_body q s ++ String q EmptyString).

(** [str(l)] for a list of strings. *)
Definition repr_list (l : list string) : string :=
  "[" ++ String.concat ", " (map repr_str l) ++ "]".

(** [signal.Signals(n).name] on Linux, when [n] is one of its members. *)
Definition signal_name (n : Z) : option string :=
  if n =? 34 then Some "SIGRTMIN"
  else if n =? 64 then Some "SIGRTMAX"
  else if n <=? 0 then None
  else
    nth_error
      ["SIGHUP"; "SIGINT"; "SIGQUIT"; "SIGILL"; "SIGTRAP"; "SIGABRT"; "SIGBUS";
       "SIGFPE"; "SIGKILL"; "SIGUSR1"; "SIGSEGV"; "SIGUSR2"; "SIGPIPE"; "SIGALRM";
       "SIGTERM"; "SIGSTKFLT"; "SIGCHLD"; "SIGCONT"; "SIGSTOP"; "SIGTSTP";
       "SIGTTIN"; "SIGTTOU"; "SIGURG"; "SIGXCPU"; "SIGXFSZ"; "SIGVTALRM";
       "SIGPROF"; "SIGWINCH"; "SIGIO"; "SIGPWR"; "SIGSYS"]
      (Z.to_nat (n - 1)).

(** [str(e)] as Starlette's [HTTPException.__str__] and CPython's
    [subprocess.CalledProcessError.__str__], [TimeoutExpired.__str__] and
    [KeyError.__str__] render it. *)
Definition str_exn (e : exn) : string :=
  match e with
  | HTTPException c d => PyStr.of_int c ++ ": " ++ d
  | CalledProcessError cmd rc _ =>
      if rc <? 0 then
        match signal_name (- rc) with
        | Some name =>
            "Command '" ++ repr_list cmd ++ "' died with <Signals." ++ name
            ++ ": " ++ PyStr.of_int (- rc) ++ ">."
        | None =>
            "Command '" ++ repr_list cmd ++ "' died with unknown signal "
            ++ PyStr.of_int (- rc) ++ "."
        end
      else
        "Command '" ++ repr_list cmd ++ "' returned non-zero exit status "
        ++ PyStr.of_int rc ++ "."
  | TimeoutExpired cmd t =>
      "Command '" ++ repr_list cmd ++ "' timed out after " ++ PyStr.of_int t
      ++ " seconds"
  | KeyError k => repr_str k
  | OSError t => t
  | RequestException t => t
  | JSONDecodeError t => t
  end.

(** Decoding of text that is already valid UTF-8. *)
Definition decode (b : string) : string := b.

Definition api_url : string := "https://cad.onshape.com/api/v12".
Definition auth : string := "Basic YTpi".

Definition now : datetime := mkDatetime 2024 3 9 7 5 0 0.
Definition later : datetime := mkDatetime 2024 3 9 7 5 0 1.

Definition document (id : string) : json :=
  JObject [("id", id); ("name", "part")]
          [("defaultWorkspace", JObject [("id", "w1")] [])].

Definition blob : json := JObject [("id", "b1")] [].

Definition ok_response (body_text : string) (j : json) : Response :=
  mkResponse true 200 body_text (inr j).

Definition error_response (code : Z) (body_text : string) : Response :=
  mkResponse false code body_text (inl (JSONDecodeError "Expecting value")).

(** A service that creates document [id], stores blobs as [b1] and
    answers an import with an empty body. *)
Definition service (id : string) (r : Request) : exn + Response :=
  match req_body r with
  | JsonBody (("name", _) :: _) => inr (ok_response "{...}" (document id))
  | FilesBody _ _ _ _ => inr (ok_response "{...}" blob)
  | JsonBody _ => inr (ok_response "" empty_json)
  end.

(** The same service with the upload rejected. *)
Definition service_upload_down (id : string) (r : Request) : exn + Response :=
  match req_body r with
  | FilesBody _ _ _ _ => inr (error_response 503 "unavailable")
  | _ => service id r
  end.

Definition world (compiler : run_result) (h : Request -> exn + Response) : Env :=
  mkEnv now (inr "/tmp/a.scad") (fun _ => None) (inr "/tmp/b.stl")
        (fun _ => compiler) (fun _ => inr "solid") (fun _ => None) h.

Definition good : Env := world (Exited 0 "") (service "d1").
Definition upload_down : Env := world (Exited 0 "") (service_upload_down "d1").
Definition empty_id_upload_down : Env := world (Exited 0 "") (service_upload_down "").
Definition syntax_error : Env := world (Exited 1 "syntax error") (service "d1").
Definition slow : Env := world TimedOut (service "d1").

Definition request (code : string) : CreateFromOpenSCADRequest := mkPayload code None.

Definition go (e : Env) (payload : CreateFromOpenSCADRequest) :=
  run api_url auth str_exn decode e payload.

(** No room for the source file. *)
Definition disk_full : Env :=
  mkEnv now (inl (OSError "No space left on device")) (fun _ => None)
        (inr "/tmp/b.stl") (fun _ => Exited 0 "") (fun _ => inr "solid")
        (fun _ => None) (service "d1").

(** The temporary directory refuses removals. *)
Definition removal_denied : Env :=
  mkEnv now (inr "/tmp/a.scad") (fun _ => None) (inr "/tmp/b.stl")
        (fun _ => Exited 0 "") (fun _ => inr "solid")
        (fun _ => Some "Permission denied") (service "d1").

(** A service that rejects every call. *)
Definition service_down (r : Request) : exn + Response :=
  inr (error_response 401 "unauthorized").

(** A body of white space only: U+00A0 (bytes C2 A0), a line feed and a
    space. *)
Definition blank_text : string := String "194" (String "160" (String "010" " ")).

(** A service that answers every call with a blank body. *)
Definition service_blank (r : Request) : exn + Response :=
  inr (ok_response blank_text empty_json).

(** No network. *)
Definition service_offline (r : Request) : exn + Response :=
  inl (RequestException "Connection refused").

Definition offline : Env := world (Exited 0 "") service_offline.
Definition all_down : Env := world (Exited 0 "") service_down.
Definition blank : Env := world (Exited 0 "") service_blank.

(** A process environment with both keys and no URL. *)
Definition environ (name : string) : option string :=
  if String.eqb name "ONSHAPE_ACCESS_KEY" then Some "a"
  else if String.eqb name "ONSHAPE_SECRET_KEY" then Some "b"
  else None.

(** The same with the URL set. *)
Definition environ_with_url (name : string) : option string :=
  if String.eqb name "ONSHAPE_API_URL" then Some "https://example.test/api"
  else environ name.

(** The same with the secret key set to the empty string. *)
Definition environ_blank_secret (name : string) : option string :=
  if String.eqb name "ONSHAPE_SECRET_KEY" then Some "" else environ name.

End Sample.

(* ===================================================================== *)
(** * Properties *)
(* ===================================================================== *)

(** ** Strings *)

Example isoformat_whole_second :
  isoformat (mkDatetime 2024 3 9 7 5 0 0) = "2024-03-09T07:05:00".
Proof. reflexivity. Qed.

Example isoformat_microsecond :
  isoformat (mkDatetime 987 12 31 23 59 59 42) = "0987-12-31T23:59:59.000042".
Proof. reflexivity. Qed.

Example quote_model_stl : PyStr.quote "model.stl" = "model.stl".
Proof. reflexivity. Qed.

Example quote_escapes : PyStr.quote "a b?.stl" = "a%20b%3F.stl".
Proof. reflexivity. Qed.

Example strip_example : PyStr.strip (String "010" "  {} " ++ String "009" "") = "{}".
Proof. reflexivity. Qed.

(** U+00A0 (bytes C2 A0), U+2003 (E2 80 83) and U+3000 (E3 80 80) are
    stripped like the space; the check mark (E2 9C 85) is kept. *)
Example strip_unicode_example :
  PyStr.strip (String "194" (String "160" (String "226" (String "128" (String "131"
    (String "226" (String "156" (String "133" (String "227" (String "128" (String "128" " ")))))))))))
  = String "226" (String "156" (String "133" "")).
Proof. reflexivity. Qed.

Example no_break_space_is_space :
  PyStr.all_space (String "194" (String "160" "")) = true.
Proof. reflexivity. Qed.

Example zero_width_space_is_not_space :
  PyStr.all_space (String "226" (String "128" (String "139" ""))) = false.
Proof. reflexivity. Qed.

(** The twenty-nine characters for which Python's [isspace] holds, U+0009
    to U+3000 in order, and some of their neighbours, U+0008 to U+1F517. *)
Example every_python_space_is_space :
  PyStr.all_space
    (String "009" (String "010" (String "011" (String "012" (String "013" (String "028"
    (String "029" (String "030" (String "031" (String "032" (String "194" (String "133"
    (String "194" (String "160" (String "225" (String "154" (String "128" (String "226"
    (String "128" (String "128" (String "226" (String "128" (String "129" (String "226"
    (String "128" (String "130" (String "226" (String "128" (String "131" (String "226"
    (String "128" (String "132" (String "226" (String "128" (String "133" (String "226"
    (String "128" (String "134" (String "226" (String "128" (String "135" (String "226"
    (String "128" (String "136" (String "226" (String "128" (String "137" (String "226"
    (String "128" (String "138" (String "226" (String "128" (String "168" (String "226"
    (String "128" (String "169" (String "226" (String "128" (String "175" (String "226"
    (String "129" (String "159" (String "227" (String "128" (String "128"
    "")))))))))))))))))))))))))))))))))))))))))))))))))))))))))))))))))
  = true.
Proof. reflexivity. Qed.

Example neighbours_are_not_spaces :
  forallb (fun ch => negb (PyStr.isspace ch)) (PyStr.chars
    (String "008" (String "014" (String "027" (String "033" (String "194" (String "132"
    (String "194" (String "134" (String "194" (String "159" (String "194" (String "161"
    (String "225" (String "153" (String "191" (String "225" (String "154" (String "129"
    (String "225" (String "160" (String "142" (String "225" (String "191" (String "191"
    (String "226" (String "128" (String "139" (String "226" (String "128" (String "167"
    (String "226" (String "128" (String "170" (String "226" (String "128" (String "174"
    (String "226" (String "128" (String "176" (String "226" (String "129" (String "158"
    (String "226" (String "129" (String "160" (String "226" (String "191" (String "191"
    (String "227" (String "128" (String "129" (String "239" (String "187" (String "191"
    (String "240" (String "159" (String "148" (String "151"
    "")))))))))))))))))))))))))))))))))))))))))))))))))))))))))))
  = true.
Proof. reflexivity. Qed.

Example of_int_404 : PyStr.of_int 404 = "404".
Proof. reflexivity. Qed.

Example str_called_process_error :
  Sample.str_exn (CalledProcessError ["openscad"; "-o"; "/tmp/b.stl"; "/tmp/a.scad"] 2 "")
  = "Command '['openscad', '-o', '/tmp/b.stl', '/tmp/a.scad']' returned non-zero exit status 2.".
Proof. reflexivity. Qed.

Example str_called_process_error_killed :
  Sample.str_exn (CalledProcessError ["openscad"] (-9) "")
  = "Command '['openscad']' died with <Signals.SIGKILL: 9>.".
Proof. reflexivity. Qed.

Example str_called_process_error_unknown_signal :
  Sample.str_exn (CalledProcessError ["openscad"] (-33) "")
  = "Command '['openscad']' died with unknown signal 33.".
Proof. reflexivity. Qed.

(** A path with a single quote is shown between double quotes. *)
Example str_timeout_expired :
  Sample.str_exn (TimeoutExpired ["openscad"; "-o"; "/tmp/b.stl"; "/tmp/a'.scad"] 30)
  = "Command '['openscad', '-o', '/tmp/b.stl', "
    ++ String "034" "/tmp/a'.scad" ++ String "034" "]' timed out after 30 seconds".
Proof. reflexivity. Qed.

Example repr_str_escapes :
  Sample.repr_str (String "097" (String "092" (String "009" (String "031" "b"))))
  = String "039" (String "097" (String "092" (String "092" (String "092"
      (String "116" (String "092" "x1fb'")))))).
Proof. reflexivity. Qed.

Example str_key_error : Sample.str_exn (KeyError "id") = "'id'".
Proof. reflexivity. Qed.

Lemma chars_nonempty_bounded (n : nat) :
  forall s, (String.length s <= n)%nat -> Forall (fun ch => ch <> "") (PyStr.chars s).
Proof.
  induction n as [|n IH]; intros s Hs.
  - destruct s; simpl in Hs; [constructor | lia].
  - destruct s as [|a r1]; [constructor|].
    change (PyStr.chars (String a r1)) with
      (if (N_of_ascii a <? 192)%N then String a "" :: PyStr.chars r1
       else match r1 with
            | "" => [String a ""]
            | String b r2 =>
                if (N_of_ascii a <? 224)%N then String a (String b "") :: PyStr.chars r2
                else match r2 with
                     | "" => [String a (String b "")]
                     | String c r3 =>
                         if (N_of_ascii a <? 240)%N
                         then String a (String b (String c "")) :: PyStr.chars r3
                         else match r3 with
                              | "" => [String a (String b (String c ""))]
                              | String d r4 =>
                                  String a (String b (String c (String d "")))
                                  :: PyStr.chars r4
                              end
                     end
            end).
    simpl in Hs.
    destruct (N_of_ascii a <? 192)%N; [|destruct r1 as [|b r2]];
      [| |destruct (N_of_ascii a <? 224)%N; [|destruct r2 as [|c r3]]];
      [| | | |destruct (N_of_ascii a <? 240)%N; [|destruct r3 as [|d r4]]];
      simpl in Hs;
      repeat first [ apply Forall_nil
                   | apply Forall_cons; [discriminate|]
                   | apply IH; lia ].
Qed.

Lemma chars_nonempty (s : string) :
  Forall (fun ch => ch <> "") (PyStr.chars s).
Proof. apply (chars_nonempty_bounded (String.length s)). lia. Qed.

Lemma lstrip_incl (l : list string) : incl (PyStr.lstrip l) l.
Proof.
  induction l as [|ch l IH]; simpl.
  - apply incl_refl.
  - destruct (PyStr.isspace ch).
    + apply incl_tl, IH.
    + apply incl_refl.
Qed.

Lemma rstrip_incl (l : list string) : incl (PyStr.rstrip l) l.
Proof.
  induction l as [|ch l IH]; simpl.
  - apply incl_refl.
  - destruct (PyStr.rstrip l) as [|x r].
    + destruct (PyStr.isspace ch).
      * apply incl_nil_l.
      * intros y [Hy|[]]. left. exact Hy.
    + intros y [Hy|Hy]; [left; exact Hy | right; apply IH, Hy].
Qed.

Lemma lstrip_all_space (l : list string) :
  forallb PyStr.isspace (PyStr.lstrip l) = forallb PyStr.isspace l.
Proof.
  induction l as [|ch l IH]; simpl; [reflexivity|].
  destruct (PyStr.isspace ch) eqn:Hc; simpl.
  - exact IH.
  - rewrite Hc. reflexivity.
Qed.

Lemma rstrip_empty_iff (l : list string) :
  PyStr.rstrip l = [] <-> forallb PyStr.isspace l = true.
Proof.
  induction l as [|ch l IH]; simpl.
  - split; reflexivity.
  - destruct (PyStr.rstrip l) eqn:Hr.
    + destruct (PyStr.isspace ch); simpl.
      * rewrite <- IH. split; reflexivity.
      * split; discriminate.
    + split; [discriminate|].
      intros H. apply andb_true_iff in H. destruct H as [_ H].
      apply IH in H. discriminate.
Qed.

Lemma concat_empty_iff (l : list string) :
  Forall (fun ch => ch <> "") l -> String.concat "" l = "" <-> l = [].
Proof.
  intros Hl. split; [|intros ->; reflexivity].
  destruct l as [|ch l]; [reflexivity|].
  inversion Hl as [|? ? Hch _]; subst.
  destruct ch as [|a ch]; [congruence|].
  destruct l; simpl; discriminate.
Qed.

(** [s.strip()] is empty exactly when every character of [s] is a space. *)
Lemma strip_empty_iff (s : string) :
  PyStr.strip s = "" <-> PyStr.all_space s = true.
Proof.
  unfold PyStr.strip, PyStr.all_space.
  rewrite concat_empty_iff.
  - rewrite rstrip_empty_iff. rewrite lstrip_all_space. reflexivity.
  - apply Forall_forall. intros ch Hch.
    apply rstrip_incl, lstrip_incl in Hch.
    pose proof (chars_nonempty s) as H.
    rewrite Forall_forall in H. apply H, Hch.
Qed.

Lemma truthy_false_iff (s : string) : PyStr.truthy s = false <-> s = "".
Proof. destruct s; simpl; split; congruence. Qed.

Lemma truthy_true_iff (s : string) : PyStr.truthy s = true <-> s <> "".
Proof. destruct s; simpl; split; congruence. Qed.

(** Linear arithmetic with division and remainder by constants. *)
Ltac divlia := Z.div_mod_to_equations; lia.

Lemma digit_inj (a b : Z) :
  0 <= a <= 9 -> 0 <= b <= 9 -> PyStr.digit a = PyStr.digit b -> a = b.
Proof.
  intros Ha Hb H. unfold PyStr.digit in H.
  apply (f_equal N_of_ascii) in H.
  rewrite !N_ascii_embedding in H by lia.
  lia.
Qed.

Ltac digits :=
  repeat match goal with
         | E : PyStr.digit _ = PyStr.digit _ |- _ =>
             apply digit_inj in E; [|divlia..]
         end.

(** Two strings that continue a common prefix are equal together. *)
Lemma append_inv_head (p a b : string) : p ++ a = p ++ b -> a = b.
Proof.
  induction p as [|c p IH]; simpl; intros H; [exact H|].
  injection H as H. auto.
Qed.

(** [isoformat] separates valid datetimes. *)
Lemma isoformat_inj (t1 t2 : datetime) :
  valid_datetime t1 -> valid_datetime t2 -> isoformat t1 = isoformat t2 -> t1 = t2.
Proof.
  destruct t1 as [y1 mo1 d1 h1 mi1 s1 u1], t2 as [y2 mo2 d2 h2 mi2 s2 u2].
  unfold valid_datetime, isoformat; simpl.
  intros (Hy1 & Hmo1 & Hd1 & Hh1 & Hmi1 & Hs1 & Hu1)
         (Hy2 & Hmo2 & Hd2 & Hh2 & Hmi2 & Hs2 & Hu2) H.
  unfold PyStr.pad4, PyStr.pad2 in H; simpl in H.
  injection H as Ey3 Ey2 Ey1 Ey0 Emo1 Emo0 Ed1 Ed0 Eh1 Eh0 Emi1 Emi0 Es1 Es0 Eu.
  digits.
  assert (u1 = u2) as ->.
  { destruct (Z.eqb_spec u1 0), (Z.eqb_spec u2 0); try discriminate.
    - lia.
    - injection Eu as E5 E4 E3 E2 E1 E0. digits. divlia. }
  f_equal; divlia.
Qed.

(** ** Default document name *)

Lemma doc_name_of_default (payload : CreateFromOpenSCADRequest) (now : datetime) :
  document_name payload = None ->
  doc_name_of payload now = "AI Model " ++ isoformat now.
Proof. intros H. unfold doc_name_of. rewrite H. reflexivity. Qed.

(** C8. When no document name is supplied the name is "AI Model " followed
    by the ISO form of the current UTC time, and two requests without a
    name that are processed at different times get different names. *)
Theorem default_name_injective
  (p1 p2 : CreateFromOpenSCADRequest) (t1 t2 : datetime) :
  document_name p1 = None -> document_name p2 = None ->
  valid_datetime t1 -> valid_datetime t2 -> t1 <> t2 ->
  doc_name_of p1 t1 = "AI Model " ++ isoformat t1 /\
  doc_name_of p2 t2 = "AI Model " ++ isoformat t2 /\
  doc_name_of p1 t1 <> doc_name_of p2 t2.
Proof.
  intros H1 H2 V1 V2 Hne.
  rewrite (doc_name_of_default p1 t1 H1), (doc_name_of_default p2 t2 H2).
  repeat split.
  intros E. apply append_inv_head in E.
  apply Hne. apply isoformat_inj; assumption.
Qed.

(** Two sample requests one microsecond apart. *)
Lemma default_name_injective_witness :
  doc_name_of (Sample.request "cube(1);") Sample.now = "AI Model 2024-03-09T07:05:00" /\
  doc_name_of (Sample.request "cube(1);") Sample.later = "AI Model 2024-03-09T07:05:00.000001" /\
  doc_name_of (Sample.request "cube(1);") Sample.now
    <> doc_name_of (Sample.request "cube(1);") Sample.later.
Proof.
  apply (default_name_injective (Sample.request "cube(1);") (Sample.request "cube(1);")
           Sample.now Sample.later).
  - reflexivity.
  - reflexivity.
  - unfold valid_datetime; simpl; lia.
  - unfold valid_datetime; simpl; lia.
  - discriminate.
Defined.

(** ** The Document Client *)

Section Properties.

Variable ONSHAPE_API_URL : string.
Variable auth_header : string.
Variable py_str : exn -> string.
Variable decode_ignore : string -> string.
Variable env : Env.

Local Abbreviation api_request := (onshape_api_request ONSHAPE_API_URL auth_header env).
Local Abbreviation api := (api_result ONSHAPE_API_URL auth_header env).
Local Abbreviation sends := (request_of ONSHAPE_API_URL auth_header).
Local Abbreviation compile := (compile_result decode_ignore env).
Local Abbreviation pipeline := (run ONSHAPE_API_URL auth_header py_str decode_ignore env).

(** A call adds its request to the trace and nothing else; its outcome
    does not depend on the state. *)
Lemma onshape_api_request_run (method path : string) (kwargs : body) (s : state) :
  api_request method path kwargs s =
    (api method path kwargs,
     mkState (files s) (calls s ++ [Http (sends method path kwargs)]) (doc_id s)).
Proof.
  unfold api_result, onshape_api_request, bind, log, lift, raise, ret.
  cbv beta iota.
  destruct (http env _) as [e|resp]; [reflexivity|].
  destruct (ok resp); simpl; [|reflexivity].
  destruct (PyStr.truthy _); reflexivity.
Qed.


(** ** The pipeline on a request that passes validation *)

Local Abbreviation body_of payload :=
  (try_body ONSHAPE_API_URL auth_header decode_ignore env
     (openscad_code payload) (doc_name_of payload (utcnow env))).

Lemma run_validated (payload : CreateFromOpenSCADRequest) :
  openscad_code payload <> "" ->
  pipeline payload =
    try_except (body_of payload) is_Exception
      (handler py_str (doc_name_of payload (utcnow env))) initial.
Proof.
  intros H. apply truthy_true_iff in H.
  unfold run, create_from_openscad. rewrite H. reflexivity.
Qed.

(** The [try] body up to and including the assignment of [doc_id]. *)
Lemma try_body_commit
  (payload : CreateFromOpenSCADRequest) (stl_bytes : string) (doc : json) (d : string) :
  compile (openscad_code payload) = inr stl_bytes ->
  api "POST" "/documents" (create_kwargs (doc_name_of payload (utcnow env))) = inr doc ->
  get_string doc "id" = inr d ->
  exists s,
    doc_id s = Some d /\
    body_of payload initial =
      after_commit ONSHAPE_API_URL auth_header env doc d
        (doc_name_of payload (utcnow env)) stl_bytes s.
Proof.
  intros Hc Hdoc Hid.
  unfold compile_result in Hc.
  unfold try_body, bind at 1.
  destruct (compile_stage decode_ignore env (openscad_code payload) initial)
    as [[e|b] s1]; simpl in Hc; [discriminate|].
  injection Hc as ->.
  unfold bind at 1. rewrite onshape_api_request_run, Hdoc.
  unfold bind at 1, lift at 1. rewrite Hid.
  unfold bind at 1, set_doc_id at 1. cbv beta iota.
  eexists. split; [|reflexivity]. reflexivity.
Qed.

(** C2. When the source is not empty and compilation, createDocument,
    uploadBlob and importBlob all succeed, the outcome is the Success
    record: its docId is the id createDocument returned, its url is
    "https://cad.onshape.com", "/documents/" and that id, and it carries the
    document name and the confirmation message. *)
Theorem all_steps_succeed_gives_success
  (payload : CreateFromOpenSCADRequest) (stl_bytes : string)
  (doc ws blob j : json) (d w b : string) :
  openscad_code payload <> "" ->
  compile (openscad_code payload) = inr stl_bytes ->
  api "POST" "/documents" (create_kwargs (doc_name_of payload (utcnow env))) = inr doc ->
  get_string doc "id" = inr d ->
  get_object doc "defaultWorkspace" = inr ws ->
  get_string ws "id" = inr w ->
  api "POST" (upload_path d w "model.stl") (upload_kwargs "model.stl" stl_bytes) = inr blob ->
  get_string blob "id" = inr b ->
  api "POST" (import_path d w) (import_kwargs b) = inr j ->
  exists r,
    fst (pipeline payload) = inr r /\
    r = success_response d (doc_name_of payload (utcnow env)) /\
    success r = true /\
    docId r = Some d /\
    url r = Some ("https://cad.onshape.com" ++ "/documents/" ++ d) /\
    docName r = Some (doc_name_of payload (utcnow env)) /\
    message r = Some (CHECK_MARK ++ " Successfully created 3D model in Onshape!"
                      ++ LF ++ LF ++ "Document: " ++ doc_name_of payload (utcnow env)
                      ++ LF ++ "ID: " ++ d ++ LF ++ LF ++ LINK ++ " View your model: "
                      ++ "https://cad.onshape.com/documents/" ++ d) /\
    error r = None.
Proof.
  intros Hcode Hc Hdoc Hid Hws Hw Hup Hb Him.
  destruct (try_body_commit payload stl_bytes doc d Hc Hdoc Hid) as (s & _ & Hbody).
  exists (success_response d (doc_name_of payload (utcnow env))).
  split; [|repeat split].
  rewrite run_validated by assumption.
  unfold try_except. rewrite Hbody.
  unfold after_commit, bind, lift. rewrite Hws, Hw.
  rewrite onshape_api_request_run, Hup, Hb.
  rewrite onshape_api_request_run, Him.
  reflexivity.
Qed.

(** A raise in the rest of the body, once [doc_id] is assigned, ends in the
    handler, which looks at the truth value of the identifier. *)
Lemma handler_after_commit
  (doc : json) (d name stl_bytes : string) (e : exn) (s : state) :
  doc_id s = Some d ->
  raises_after_commit ONSHAPE_API_URL auth_header env doc d stl_bytes e ->
  fst (try_except (after_commit ONSHAPE_API_URL auth_header env doc d name stl_bytes)
         is_Exception (handler py_str name) s)
  = inr (if PyStr.truthy d then partial_success_response d name
         else failure_response (py_str e)).
Proof.
  intros Hs Hraise.
  unfold try_except, after_commit, bind, lift.
  destruct Hraise as [e He | ws e Hws He | ws w e Hws Hw He
                     | ws w blob e Hws Hw Hup He | ws w blob b e Hws Hw Hup Hb He].
  - rewrite He. simpl. unfold handler, bind, get_doc_id. rewrite Hs.
    destruct (PyStr.truthy d); reflexivity.
  - rewrite Hws, He. simpl. unfold handler, bind, get_doc_id. rewrite Hs.
    destruct (PyStr.truthy d); reflexivity.
  - rewrite Hws, Hw, onshape_api_request_run, He. simpl.
    unfold handler, bind, get_doc_id. simpl. rewrite Hs.
    destruct (PyStr.truthy d); reflexivity.
  - rewrite Hws, Hw, onshape_api_request_run, Hup, He. simpl.
    unfold handler, bind, get_doc_id. simpl. rewrite Hs.
    destruct (PyStr.truthy d); reflexivity.
  - rewrite Hws, Hw, onshape_api_request_run, Hup, Hb, onshape_api_request_run, He. simpl.
    unfold handler, bind, get_doc_id. simpl. rewrite Hs.
    destruct (PyStr.truthy d); reflexivity.
Qed.

(** The run when a step raises after the assignment of [doc_id]. *)
Lemma run_on_raise_after_commit
  (payload : CreateFromOpenSCADRequest) (stl_bytes : string)
  (doc : json) (d : string) (e : exn) :
  openscad_code payload <> "" ->
  compile (openscad_code payload) = inr stl_bytes ->
  api "POST" "/documents" (create_kwargs (doc_name_of payload (utcnow env))) = inr doc ->
  get_string doc "id" = inr d ->
  raises_after_commit ONSHAPE_API_URL auth_header env doc d stl_bytes e ->
  fst (pipeline payload)
  = inr (if PyStr.truthy d
         then partial_success_response d (doc_name_of payload (utcnow env))
         else failure_response (py_str e)).
Proof.
  intros Hcode Hc Hdoc Hid Hraise.
  destruct (try_body_commit payload stl_bytes doc d Hc Hdoc Hid) as (s & Hs & Hbody).
  rewrite run_validated by assumption.
  rewrite <- (handler_after_commit doc d (doc_name_of payload (utcnow env))
                stl_bytes e s Hs Hraise).
  unfold try_except. rewrite Hbody. reflexivity.
Qed.

(** X18. What the handler's [if doc_id:] does for an identifier that is
    not the empty string: when the source is not empty, compilation
    succeeds, createDocument returns such an identifier, and a later step
    (reading the workspace, uploadBlob, reading the blob id, or importBlob)
    raises, the outcome is the PartialSuccess record: success is true, docId
    is the id createDocument returned, and the record carries the document
    name, the viewer URL and the success-style message. *)
Theorem raise_after_commit_gives_partial
  (payload : CreateFromOpenSCADRequest) (stl_bytes : string)
  (doc : json) (d : string) (e : exn) :
  openscad_code payload <> "" ->
  compile (openscad_code payload) = inr stl_bytes ->
  api "POST" "/documents" (create_kwargs (doc_name_of payload (utcnow env))) = inr doc ->
  get_string doc "id" = inr d ->
  d <> "" ->
  raises_after_commit ONSHAPE_API_URL auth_header env doc d stl_bytes e ->
  exists r,
    fst (pipeline payload) = inr r /\
    r = partial_success_response d (doc_name_of payload (utcnow env)) /\
    success r = true /\
    docId r = Some d /\
    docName r = Some (doc_name_of payload (utcnow env)) /\
    url r = Some ("https://cad.onshape.com" ++ "/documents/" ++ d) /\
    message r = Some ("Successfully created 3D model in Onshape!"
                      ++ LF ++ LF ++ "Document: " ++ doc_name_of payload (utcnow env)
                      ++ LF ++ "ID: " ++ d ++ LF ++ LF ++ LINK ++ " View your model: "
                      ++ "https://cad.onshape.com/documents/" ++ d) /\
    error r = None.
Proof.
  intros Hcode Hc Hdoc Hid Hd Hraise.
  exists (partial_success_response d (doc_name_of payload (utcnow env))).
  split; [|repeat split].
  rewrite (run_on_raise_after_commit payload stl_bytes doc d e) by assumption.
  apply truthy_true_iff in Hd. rewrite Hd. reflexivity.
Qed.

(** X5. When the identifier createDocument returned is the empty string,
    a raise after the commit point ends in the Failure record with the text
    of the exception, not in the PartialSuccess record. *)
Lemma empty_id_gives_failure
  (payload : CreateFromOpenSCADRequest) (stl_bytes : string) (doc : json) (e : exn) :
  openscad_code payload <> "" ->
  compile (openscad_code payload) = inr stl_bytes ->
  api "POST" "/documents" (create_kwargs (doc_name_of payload (utcnow env))) = inr doc ->
  get_string doc "id" = inr "" ->
  raises_after_commit ONSHAPE_API_URL auth_header env doc "" stl_bytes e ->
  fst (pipeline payload) = inr (failure_response (py_str e)).
Proof.
  intros Hcode Hc Hdoc Hid Hraise.
  rewrite (run_on_raise_after_commit payload stl_bytes doc "" e) by assumption.
  reflexivity.
Qed.

(** ** Validation *)

(** C3, amended. An empty source is rejected by raising [HTTPException]
    with status 400 and detail "openscad_code is required"; the state is
    untouched: no temporary file, no compiler run, no Document Client
    call. *)
Theorem empty_source_rejected (payload : CreateFromOpenSCADRequest) :
  openscad_code payload = "" ->
  fst (pipeline payload) = inl (HTTPException 400 "openscad_code is required") /\
  snd (pipeline payload) = initial /\
  compiler_calls (snd (pipeline payload)) = [] /\
  http_calls (snd (pipeline payload)) = [].
Proof.
  intros H. unfold run, create_from_openscad. rewrite H. repeat split.
Qed.

(** ** The compiler stage *)

(** The whole run when the compiler fails: the handler finds [doc_id]
    unset, both temporary files are still there, and the trace holds the
    compiler run alone. *)
Lemma run_on_compiler_failure
  (payload : CreateFromOpenSCADRequest) (scad_path stl_path : string) (e : exn) :
  openscad_code payload <> "" ->
  scad_tmp env = inr scad_path ->
  scad_write env (openscad_code payload) = None ->
  stl_tmp env = inr stl_path ->
  compiler_fails decode_ignore env ["openscad"; "-o"; stl_path; scad_path] e ->
  pipeline payload =
    (inr (failure_response (py_str e)),
     mkState [stl_path; scad_path]
       [Subprocess ["openscad"; "-o"; stl_path; scad_path] 30] None).
Proof.
  intros Hcode Hscad Hwrite Hstl Hfail.
  rewrite run_validated by assumption.
  unfold try_except, try_body, compile_stage, NamedTemporaryFile, write,
    run_openscad, subprocess_run, try_except, bind, lift, log, create_file, ret.
  rewrite Hscad, Hwrite, Hstl. cbv beta iota.
  destruct Hfail as [rc err Hrun Hrc | Hrun]; cbn [calls files doc_id initial app].
  - rewrite Hrun. apply Z.eqb_neq in Hrc. rewrite Hrc. reflexivity.
  - rewrite Hrun. reflexivity.
Qed.

(** C5. When the source is not empty, both temporary files were created,
    and the compiler exits with a non-zero status or runs past the 30
    second bound, the outcome is the Failure record whose error is the text
    of the exception, and the trace holds no Document Client call. *)
Theorem compiler_failure_gives_failure
  (payload : CreateFromOpenSCADRequest) (scad_path stl_path : string) (e : exn) :
  openscad_code payload <> "" ->
  scad_tmp env = inr scad_path ->
  scad_write env (openscad_code payload) = None ->
  stl_tmp env = inr stl_path ->
  compiler_fails decode_ignore env ["openscad"; "-o"; stl_path; scad_path] e ->
  exists r,
    fst (pipeline payload) = inr r /\
    success r = false /\
    error r = Some (py_str e) /\
    http_calls (snd (pipeline payload)) = [] /\
    compiler_calls (snd (pipeline payload)) =
      [Subprocess ["openscad"; "-o"; stl_path; scad_path] 30].
Proof.
  intros Hcode Hscad Hwrite Hstl Hfail.
  rewrite (run_on_compiler_failure payload scad_path stl_path e) by assumption.
  exists (failure_response (py_str e)). repeat split.
Qed.

(** The removals never raise out of the clean-up block. *)
Lemma clean_up_swallows (scad_path stl_path : string) (s : state) :
  fst (clean_up env scad_path stl_path s) = inr tt.
Proof.
  unfold clean_up, try_except, remove, bind, raise, delete_file, ret.
  destruct (os_remove env scad_path); [reflexivity|].
  cbv beta iota.
  destruct (os_remove env stl_path); reflexivity.
Qed.

(** When the mesh has been read and both removals go through, no temporary
    file is left. *)
Lemma temp_files_removed_after_read
  (code scad_path stl_path err stl_bytes : string) :
  scad_tmp env = inr scad_path ->
  scad_write env code = None ->
  stl_tmp env = inr stl_path ->
  openscad env ["openscad"; "-o"; stl_path; scad_path] = Exited 0 err ->
  stl_read env stl_path = inr stl_bytes ->
  os_remove env scad_path = None ->
  os_remove env stl_path = None ->
  compile code = inr stl_bytes /\
  files (after_compile decode_ignore env code) = [].
Proof.
  intros Hscad Hwrite Hstl Hrun Hread Hrm1 Hrm2.
  unfold compile_result, after_compile, compile_stage, NamedTemporaryFile, write,
    run_openscad, subprocess_run, clean_up, remove, try_except, bind, lift, log,
    create_file, delete_file, ret.
  rewrite Hscad, Hwrite, Hstl. cbv beta iota.
  cbn [calls files doc_id initial app].
  rewrite Hrun. cbv beta iota. cbn [Z.eqb].
  rewrite Hread. cbv beta iota. rewrite Hrm1. cbv beta iota.
  cbn [calls files doc_id]. rewrite Hrm2. cbv beta iota.
  split; [reflexivity|]. cbn [snd files List.remove].
  destruct (string_dec scad_path stl_path) as [->|Hne].
  - destruct (string_dec stl_path stl_path); [reflexivity|congruence].
  - destruct (string_dec scad_path scad_path); [|congruence].
    cbn [List.remove].
    destruct (string_dec stl_path stl_path); [reflexivity|congruence].
Qed.

(** ** Outcome records *)

Lemma bind_returns {A B : Type} (m : M A) (k : A -> M B) (s s' : state) (b : B) :
  bind m k s = (inr b, s') ->
  exists a s1, m s = (inr a, s1) /\ k a s1 = (inr b, s').
Proof.
  unfold bind. destruct (m s) as [[e|a] s1]; intros H; [discriminate|].
  exists a, s1. split; [reflexivity|exact H].
Qed.

(** The only record the [try] body returns is a Success record. *)
Lemma try_body_returns
  (code name : string) (s s' : state) (r : CreateFromOpenSCADResponse) :
  try_body ONSHAPE_API_URL auth_header decode_ignore env code name s = (inr r, s') ->
  exists d, r = success_response d name.
Proof.
  unfold try_body, after_commit. intros H.
  repeat (apply bind_returns in H; destruct H as (? & ? & _ & H)).
  unfold ret in H. injection H as <- _. eexists. reflexivity.
Qed.

(** The handler always returns, and what it returns is a PartialSuccess
    record or a Failure record. *)
Lemma handler_returns (name : string) (e : exn) (s : state) :
  exists r,
    handler py_str name e s = (inr r, s) /\
    ((exists d, r = partial_success_response d name)
     \/ r = failure_response (py_str e)).
Proof.
  unfold handler, bind, get_doc_id, ret.
  destruct (doc_id s) as [d|].
  - destruct (PyStr.truthy d); eexists; (split; [reflexivity|]); eauto.
  - eexists; split; [reflexivity|]; auto.
Qed.

Lemma success_response_well_formed (d name : string) :
  well_formed (success_response d name).
Proof. unfold well_formed, populated, absent; simpl. repeat split; discriminate. Qed.

Lemma partial_success_response_well_formed (d name : string) :
  well_formed (partial_success_response d name).
Proof. unfold well_formed, populated, absent; simpl. repeat split; discriminate. Qed.

Lemma failure_response_well_formed (detail : string) :
  well_formed (failure_response detail).
Proof. unfold well_formed, populated, absent; simpl. repeat split; discriminate. Qed.

(** A request that passes validation ends in one of the three records. *)
Lemma validated_outcome (payload : CreateFromOpenSCADRequest) :
  openscad_code payload <> "" ->
  exists r,
    fst (pipeline payload) = inr r /\
    ((exists d, r = success_response d (doc_name_of payload (utcnow env)))
     \/ (exists d, r = partial_success_response d (doc_name_of payload (utcnow env)))
     \/ (exists e, r = failure_response (py_str e))).
Proof.
  intros Hcode. rewrite run_validated by assumption. unfold try_except.
  destruct (body_of payload initial) as [[e|r] s] eqn:Hbody.
  - cbn [is_Exception].
    destruct (handler_returns (doc_name_of payload (utcnow env)) e s)
      as (r & Hr & [Hp | Hf]).
    + exists r. rewrite Hr. split; [reflexivity|]. right; left; exact Hp.
    + exists r. rewrite Hr. split; [reflexivity|]. right; right; eauto.
  - exists r. split; [reflexivity|]. left.
    apply try_body_returns in Hbody. exact Hbody.
Qed.

Lemma outcome_shape (r : CreateFromOpenSCADResponse) (name : string) :
  (exists d, r = success_response d name)
  \/ (exists d, r = partial_success_response d name)
  \/ (exists e, r = failure_response (py_str e)) ->
  well_formed r.
Proof.
  intros [[d ->] | [[d ->] | [e ->]]].
  - apply success_response_well_formed.
  - apply partial_success_response_well_formed.
  - apply failure_response_well_formed.
Qed.

(** C6, amended. For a request whose source is not empty, whatever the
    temporary directory, the compiler and the remote API do, the run ends
    by returning a well-formed outcome record and no exception leaves
    [create_from_openscad]; for an empty source the validation error is
    raised as an [HTTPException] with status 400 instead of being
    returned. *)
Theorem outcome_or_validation_error (payload : CreateFromOpenSCADRequest) :
  (openscad_code payload <> "" ->
   exists r, fst (pipeline payload) = inr r /\ well_formed r) /\
  (openscad_code payload = "" ->
   fst (pipeline payload) = inl (HTTPException 400 "openscad_code is required")).
Proof.
  split.
  - intros Hcode. destruct (validated_outcome payload Hcode) as (r & Hr & Hshape).
    exists r. split; [exact Hr|]. eapply outcome_shape; exact Hshape.
  - intros Hcode. unfold run, create_from_openscad. rewrite Hcode. reflexivity.
Qed.

(** C10. Every record the run returns has, when success is true, docId,
    docName, url and message populated and error absent, and, when success
    is false, error populated and the four others absent; a Success record
    and a PartialSuccess record have the same success flag and the same
    error field. *)
Theorem returned_record_well_formed
  (payload : CreateFromOpenSCADRequest) (r : CreateFromOpenSCADResponse) :
  fst (pipeline payload) = inr r ->
  well_formed r /\
  (forall d name d' name',
      success (success_response d name) = success (partial_success_response d' name')
      /\ error (success_response d name) = error (partial_success_response d' name')).
Proof.
  intros Hr. split; [|split; reflexivity].
  destruct (string_dec (openscad_code payload) "") as [Hcode|Hcode].
  - unfold run, create_from_openscad in Hr. rewrite Hcode in Hr. discriminate.
  - destruct (validated_outcome payload Hcode) as (r' & Hr' & Hshape).
    rewrite Hr in Hr'. injection Hr' as <-.
    eapply outcome_shape; exact Hshape.
Qed.

(** ** The trace *)

Section Invariant.

Variable P : state -> Prop.

Lemma preserves_ret {A : Type} (a : A) : preserves P (ret a).
Proof. intros s H. exact H. Qed.

Lemma preserves_raise {A : Type} (e : exn) : preserves P (@raise A e).
Proof. intros s H. exact H. Qed.

Lemma preserves_lift {A : Type} (r : exn + A) : preserves P (lift r).
Proof. intros s H. exact H. Qed.

Lemma preserves_get_doc_id : preserves P get_doc_id.
Proof. intros s H. exact H. Qed.

Lemma preserves_bind {A B : Type} (m : M A) (k : A -> M B) :
  preserves P m -> (forall a, preserves P (k a)) -> preserves P (bind m k).
Proof.
  intros Hm Hk s H. unfold bind.
  specialize (Hm s H). destruct (m s) as [[e|a] s1]; simpl in Hm.
  - exact Hm.
  - apply Hk. exact Hm.
Qed.

Lemma preserves_try_except {A : Type} (body : M A) (cls : exn -> bool) (h : exn -> M A) :
  preserves P body -> (forall e, preserves P (h e)) -> preserves P (try_except body cls h).
Proof.
  intros Hb Hh s H. unfold try_except.
  specialize (Hb s H). destruct (body s) as [[e|a] s1]; simpl in Hb.
  - destruct (cls e); [apply Hh|]; exact Hb.
  - exact Hb.
Qed.

End Invariant.

Lemma posts_only_set_doc_id (d : option string) : preserves posts_only (set_doc_id d).
Proof. intros s H. exact H. Qed.

Lemma posts_only_create_file (path : string) : preserves posts_only (create_file path).
Proof. intros s H. exact H. Qed.

Lemma posts_only_delete_file (path : string) : preserves posts_only (delete_file path).
Proof. intros s H. exact H. Qed.

Lemma posts_only_log (e : event) : is_post e = true -> preserves posts_only (log e).
Proof.
  intros He s H. unfold posts_only, log; simpl.
  apply Forall_app. split; [exact H|]. constructor; [exact He|constructor].
Qed.

(** One rule of the invariant, or a case split on what the code inspects. *)
Ltac preserve_step :=
  first
    [ apply preserves_ret | apply preserves_raise | apply preserves_lift
    | apply preserves_get_doc_id | apply posts_only_set_doc_id
    | apply posts_only_create_file | apply posts_only_delete_file
    | apply posts_only_log; reflexivity
    | apply preserves_bind; [|intro]
    | apply preserves_try_except; [|intro]
    | match goal with
      | |- preserves _ (match ?x with _ => _ end) => destruct x
      end ].

Lemma posts_only_api_request (path : string) (kwargs : body) :
  preserves posts_only (api_request "POST" path kwargs).
Proof. unfold onshape_api_request. repeat preserve_step. Qed.

Lemma posts_only_compile_stage (code : string) :
  preserves posts_only (compile_stage decode_ignore env code).
Proof.
  unfold compile_stage, NamedTemporaryFile, write, run_openscad, subprocess_run,
    clean_up, remove.
  repeat preserve_step.
Qed.

Lemma posts_only_try_body (code name : string) :
  preserves posts_only
    (try_body ONSHAPE_API_URL auth_header decode_ignore env code name).
Proof.
  unfold try_body, after_commit.
  repeat first [ apply posts_only_compile_stage | apply posts_only_api_request
               | preserve_step ].
Qed.

Lemma posts_only_create_from_openscad (payload : CreateFromOpenSCADRequest) :
  preserves posts_only
    (create_from_openscad ONSHAPE_API_URL auth_header py_str decode_ignore env payload).
Proof.
  unfold create_from_openscad, handler.
  repeat first [ apply posts_only_try_body | preserve_step ].
Qed.

Lemma post_is_not_deletion (e : event) : is_post e = true -> is_deletion e = false.
Proof.
  destruct e as [argv t|r]; simpl; [reflexivity|].
  intros H. apply String.eqb_eq in H. rewrite H. reflexivity.
Qed.

(** C9. Every call in the trace of a run that goes to the remote API is a
    POST, so no call of the trace, on any path through the body or the
    handler, is a deletion. *)
Theorem never_deletes (payload : CreateFromOpenSCADRequest) :
  Forall (fun e => is_post e = true) (calls (snd (pipeline payload))) /\
  Forall (fun e => is_deletion e = false) (calls (snd (pipeline payload))).
Proof.
  assert (H : posts_only (snd (pipeline payload))).
  { apply posts_only_create_from_openscad. constructor. }
  split; [exact H|].
  unfold posts_only in H. eapply Forall_impl; [|exact H].
  intros e. apply post_is_not_deletion.
Qed.

End Properties.

(* ===================================================================== *)
(** * The sample runs *)
(* ===================================================================== *)

Example run_good :
  fst (Sample.go Sample.good (Sample.request "cube(1);"))
  = inr (success_response "d1" "AI Model 2024-03-09T07:05:00").
Proof. reflexivity. Qed.

Example run_good_trace :
  map is_http (calls (snd (Sample.go Sample.good (Sample.request "cube(1);"))))
  = [false; true; true; true].
Proof. reflexivity. Qed.


(** The sample run in which every step succeeds. *)
Lemma all_steps_succeed_witness :
  exists r,
    fst (Sample.go Sample.good (Sample.request "cube(1);")) = inr r /\
    r = success_response "d1" "AI Model 2024-03-09T07:05:00" /\
    success r = true /\
    docId r = Some "d1" /\
    url r = Some "https://cad.onshape.com/documents/d1" /\
    docName r = Some "AI Model 2024-03-09T07:05:00" /\
    message r = Some (CHECK_MARK ++ " Successfully created 3D model in Onshape!"
                      ++ LF ++ LF ++ "Document: AI Model 2024-03-09T07:05:00"
                      ++ LF ++ "ID: d1" ++ LF ++ LF ++ LINK
                      ++ " View your model: https://cad.onshape.com/documents/d1") /\
    error r = None.
Proof.
  apply (all_steps_succeed_gives_success Sample.api_url Sample.auth Sample.str_exn Sample.decode Sample.good
           (Sample.request "cube(1);") "solid"
           (Sample.document "d1") (JObject [("id", "w1")] []) Sample.blob empty_json
           "d1" "w1" "b1"); try reflexivity.
  discriminate.
Defined.

(** The sample run in which the upload is rejected after document [d1]
    was created. *)
Lemma raise_after_commit_witness :
  exists r,
    fst (Sample.go Sample.upload_down (Sample.request "cube(1);")) = inr r /\
    r = partial_success_response "d1" "AI Model 2024-03-09T07:05:00" /\
    success r = true /\
    docId r = Some "d1" /\
    docName r = Some "AI Model 2024-03-09T07:05:00" /\
    url r = Some "https://cad.onshape.com/documents/d1" /\
    message r = Some ("Successfully created 3D model in Onshape!"
                      ++ LF ++ LF ++ "Document: AI Model 2024-03-09T07:05:00"
                      ++ LF ++ "ID: d1" ++ LF ++ LF ++ LINK
                      ++ " View your model: https://cad.onshape.com/documents/d1") /\
    error r = None.
Proof.
  apply (raise_after_commit_gives_partial Sample.api_url Sample.auth Sample.str_exn Sample.decode
           Sample.upload_down (Sample.request "cube(1);") "solid"
           (Sample.document "d1") "d1"
           (HTTPException 503 "Onshape API error 503: unavailable")); try reflexivity.
  - discriminate.
  - discriminate.
  - apply (upload_raises Sample.api_url Sample.auth Sample.upload_down
             (Sample.document "d1") "d1" "solid" (JObject [("id", "w1")] []) "w1");
      reflexivity.
Defined.

(** C1 fails on the code when the identifier createDocument returns is the
    empty string. The document is created (the call is answered [ok] with
    an object whose [id] is the empty string and whose workspace is there),
    [doc_id] is assigned, and the upload is rejected after this commit
    point; the handler's [if doc_id:] tests the truth value of the
    identifier, not whether it was assigned, so the outcome is the Failure
    record with the text of the exception, not the PartialSuccess record
    that line 157 announces for a document that was created. *)
Theorem created_document_lost_on_empty_id :
  compile_result Sample.decode Sample.empty_id_upload_down "cube(1);" = inr "solid" /\
  api_result Sample.api_url Sample.auth Sample.empty_id_upload_down "POST" "/documents"
    (create_kwargs "AI Model 2024-03-09T07:05:00") = inr (Sample.document "") /\
  get_string (Sample.document "") "id" = inr "" /\
  raises_after_commit Sample.api_url Sample.auth Sample.empty_id_upload_down
    (Sample.document "") "" "solid"
    (HTTPException 503 "Onshape API error 503: unavailable") /\
  fst (Sample.go Sample.empty_id_upload_down (Sample.request "cube(1);"))
  = inr (failure_response "503: Onshape API error 503: unavailable") /\
  fst (Sample.go Sample.empty_id_upload_down (Sample.request "cube(1);"))
  <> inr (partial_success_response "" "AI Model 2024-03-09T07:05:00").
Proof.
  repeat split; try reflexivity.
  - apply (upload_raises Sample.api_url Sample.auth Sample.empty_id_upload_down
             (Sample.document "") "" "solid" (JObject [("id", "w1")] []) "w1");
      reflexivity.
  - discriminate.
Qed.

(** The sample run on the empty source. *)
Lemma empty_source_rejected_witness :
  fst (Sample.go Sample.good (Sample.request ""))
  = inl (HTTPException 400 "openscad_code is required") /\
  snd (Sample.go Sample.good (Sample.request "")) = initial /\
  compiler_calls (snd (Sample.go Sample.good (Sample.request ""))) = [] /\
  http_calls (snd (Sample.go Sample.good (Sample.request ""))) = [].
Proof.
  apply (empty_source_rejected Sample.api_url Sample.auth Sample.str_exn Sample.decode
           Sample.good (Sample.request "")).
  reflexivity.
Defined.

(** C3 as stated fails on a source that is a single space: validation lets
    it through, the compiler runs once, the three Document Client calls are
    made, and the outcome is a Success record. *)
Lemma whitespace_source_counterexample :
  PyStr.all_space " " = true /\
  fst (Sample.go Sample.good (Sample.request " "))
  = inr (success_response "d1" "AI Model 2024-03-09T07:05:00") /\
  compiler_calls (snd (Sample.go Sample.good (Sample.request " ")))
  = [Subprocess ["openscad"; "-o"; "/tmp/b.stl"; "/tmp/a.scad"] 30] /\
  length (http_calls (snd (Sample.go Sample.good (Sample.request " ")))) = 3%nat.
Proof. repeat split. Qed.

(** C4 fails on the code when the compiler fails: the raise leaves the
    [try] body before the removals, and both temporary files are still
    there when the pipeline has returned its Failure record, after a
    non-zero exit as after a timeout. *)
Theorem temp_files_left_when_compiler_fails :
  fst (Sample.go Sample.syntax_error (Sample.request "cube("))
  = inr (failure_response "500: OpenSCAD error: syntax error") /\
  files (snd (Sample.go Sample.syntax_error (Sample.request "cube(")))
  = ["/tmp/b.stl"; "/tmp/a.scad"] /\
  fst (Sample.go Sample.slow (Sample.request "cube(1);"))
  = inr (failure_response
           "Command '['openscad', '-o', '/tmp/b.stl', '/tmp/a.scad']' timed out after 30 seconds") /\
  files (snd (Sample.go Sample.slow (Sample.request "cube(1);")))
  = ["/tmp/b.stl"; "/tmp/a.scad"].
Proof. repeat split. Qed.

(** The sample run in which the compiler reports a syntax error. *)
Lemma compiler_failure_witness :
  exists r,
    fst (Sample.go Sample.syntax_error (Sample.request "cube(")) = inr r /\
    success r = false /\
    error r = Some "500: OpenSCAD error: syntax error" /\
    http_calls (snd (Sample.go Sample.syntax_error (Sample.request "cube("))) = [] /\
    compiler_calls (snd (Sample.go Sample.syntax_error (Sample.request "cube("))) =
      [Subprocess ["openscad"; "-o"; "/tmp/b.stl"; "/tmp/a.scad"] 30].
Proof.
  apply (compiler_failure_gives_failure Sample.api_url Sample.auth Sample.str_exn Sample.decode
           Sample.syntax_error (Sample.request "cube(") "/tmp/a.scad" "/tmp/b.stl"
           (HTTPException 500 "OpenSCAD error: syntax error")); try reflexivity.
  - discriminate.
  - apply (nonzero_exit Sample.decode Sample.syntax_error
             ["openscad"; "-o"; "/tmp/b.stl"; "/tmp/a.scad"] 1 "syntax error");
      [reflexivity | lia].
Defined.

(** A timed-out compilation returns a record; the empty source raises. *)
Lemma outcome_or_validation_error_witness :
  (exists r, fst (Sample.go Sample.slow (Sample.request "cube(1);")) = inr r
             /\ well_formed r) /\
  fst (Sample.go Sample.slow (Sample.request ""))
  = inl (HTTPException 400 "openscad_code is required").
Proof.
  split.
  - apply (outcome_or_validation_error Sample.api_url Sample.auth Sample.str_exn
             Sample.decode Sample.slow (Sample.request "cube(1);")).
    discriminate.
  - apply (outcome_or_validation_error Sample.api_url Sample.auth Sample.str_exn
             Sample.decode Sample.slow (Sample.request "")).
    reflexivity.
Defined.

(** C6 as stated fails on the empty source: the validation error leaves
    [create_from_openscad] as an exception and no record is returned. *)
Lemma validation_error_escapes_counterexample :
  fst (Sample.go Sample.good (Sample.request ""))
  = inl (HTTPException 400 "openscad_code is required") /\
  ~ (exists r, fst (Sample.go Sample.good (Sample.request "")) = inr r).
Proof.
  split; [reflexivity|]. intros [r H]. discriminate H.
Qed.

(** The record of the sample run with the upload rejected. *)
Lemma returned_record_well_formed_witness :
  well_formed (partial_success_response "d1" "AI Model 2024-03-09T07:05:00") /\
  (forall d name d' name',
      success (success_response d name) = success (partial_success_response d' name')
      /\ error (success_response d name) = error (partial_success_response d' name')).
Proof.
  apply (returned_record_well_formed Sample.api_url Sample.auth Sample.str_exn
           Sample.decode Sample.upload_down (Sample.request "cube(1);")).
  reflexivity.
Defined.

(* ===================================================================== *)
(** * Further properties of the pipeline *)
(* ===================================================================== *)

(** Case analysis on the innermost thing a [match] looks at. *)
Ltac break_match :=
  match goal with
  | |- context [match ?x with _ => _ end] =>
      lazymatch x with
      | context [match _ with _ => _ end] => fail
      | _ => destruct x eqn:?
      end
  end.

Section Coverage.

Variable ONSHAPE_API_URL : string.
Variable auth_header : string.
Variable py_str : exn -> string.
Variable decode_ignore : string -> string.
Variable env : Env.

Local Abbreviation api_request := (onshape_api_request ONSHAPE_API_URL auth_header env).
Local Abbreviation api := (api_result ONSHAPE_API_URL auth_header env).
Local Abbreviation sends := (request_of ONSHAPE_API_URL auth_header).
Local Abbreviation compile := (compile_result decode_ignore env).
Local Abbreviation compiled := (after_compile decode_ignore env).
Local Abbreviation pipeline := (run ONSHAPE_API_URL auth_header py_str decode_ignore env).
Local Abbreviation name_of payload := (doc_name_of payload (utcnow env)).

(** ** The compiler stage *)

(** What a compiler stage that returns has gone through, and what it
    leaves in the trace. *)
Lemma compile_ok_inv (code stl_bytes : string) :
  compile code = inr stl_bytes ->
  exists scad_path stl_path err,
    scad_tmp env = inr scad_path /\
    scad_write env code = None /\
    stl_tmp env = inr stl_path /\
    openscad env ["openscad"; "-o"; stl_path; scad_path] = Exited 0 err /\
    stl_read env stl_path = inr stl_bytes /\
    calls (compiled code) = [Subprocess ["openscad"; "-o"; stl_path; scad_path] 30].
Proof.
  unfold compile_result, after_compile, compile_stage, NamedTemporaryFile, write,
    run_openscad, subprocess_run, clean_up, remove, try_except, bind, lift, log,
    create_file, delete_file, raise, ret.
  intros H. revert H.
  repeat (break_match; cbn -[Z.eqb] in *; try discriminate).
  all: intros H; injection H as <-.
  all: repeat match goal with
         | E : (_ =? 0) = true |- _ => apply Z.eqb_eq in E; subst
         end.
  all: do 3 eexists; repeat split; eassumption.
Qed.

(** Whatever the compiler stage does, it makes no remote call, leaves
    [doc_id] alone, and runs the compiler at most once. *)
Lemma compile_stage_trace (code : string) :
  doc_id (compiled code) = None /\
  http_calls (compiled code) = [] /\
  exists argv, initial_segment (calls (compiled code)) [Subprocess argv 30].
Proof.
  unfold after_compile, compile_stage, NamedTemporaryFile, write,
    run_openscad, subprocess_run, clean_up, remove, try_except, bind, lift, log,
    create_file, delete_file, raise, ret, http_calls, initial_segment.
  repeat (break_match; cbn -[Z.eqb] in *; try discriminate).
  all: repeat split.
  all: first [ exists [], [Subprocess [] 30]; reflexivity
             | eexists; exists []; reflexivity ].
Qed.

(** The [try] body as the compiler stage followed by the remote stage. *)
Lemma try_body_stages (code name : string) :
  try_body ONSHAPE_API_URL auth_header decode_ignore env code name initial =
    match compile code with
    | inl e => (inl e, compiled code)
    | inr stl_bytes =>
        bind (api_request "POST" "/documents" (create_kwargs name))
          (fun doc =>
             bind (lift (get_string doc "id"))
               (fun d =>
                  bind (set_doc_id (Some d))
                    (fun _ =>
                       after_commit ONSHAPE_API_URL auth_header env doc d name stl_bytes)))
          (compiled code)
    end.
Proof.
  unfold try_body, compile_result, after_compile, bind at 1.
  destruct (compile_stage decode_ignore env code initial) as [[e|b] s]; reflexivity.
Qed.

(** Follow a validated run through its stages, one case per outcome of the
    compiler stage, of each remote call and of each lookup. *)
Ltac walk :=
  rewrite run_validated by assumption;
  unfold try_except; rewrite try_body_stages;
  unfold after_commit, handler, bind, lift, ret, set_doc_id, get_doc_id;
  repeat (cbv beta iota; cbn [doc_id files calls fst snd is_Exception];
          try rewrite onshape_api_request_run;
          break_match).

(** X2. Whatever raises in the compiler stage (creating or writing a
    temporary file, starting or running the compiler, reading the mesh), the
    outcome is the Failure record with the text of that exception, and no
    call has gone to the remote API. *)
Lemma compile_stage_error_gives_failure
  (payload : CreateFromOpenSCADRequest) (e : exn) :
  openscad_code payload <> "" ->
  compile (openscad_code payload) = inl e ->
  fst (pipeline payload) = inr (failure_response (py_str e)) /\
  http_calls (snd (pipeline payload)) = [].
Proof.
  intros Hcode Hc.
  destruct (compile_stage_trace (openscad_code payload)) as (Hid & Hhttp & _).
  rewrite run_validated by assumption.
  unfold try_except. rewrite try_body_stages, Hc.
  unfold handler, bind, get_doc_id, ret. cbn [is_Exception]. cbv beta iota.
  rewrite Hid. split; [reflexivity|exact Hhttp].
Qed.

(** ** Before the commit point *)

(** X3. When createDocument raises, or its answer has no [id], the
    outcome is the Failure record with the text of that exception, and
    createDocument is the only remote call made. *)
Lemma create_failure_gives_failure
  (payload : CreateFromOpenSCADRequest) (stl_bytes : string) (e : exn) :
  openscad_code payload <> "" ->
  compile (openscad_code payload) = inr stl_bytes ->
  (api "POST" "/documents" (create_kwargs (name_of payload)) = inl e
   \/ exists doc,
       api "POST" "/documents" (create_kwargs (name_of payload)) = inr doc
       /\ get_string doc "id" = inl e) ->
  fst (pipeline payload) = inr (failure_response (py_str e)) /\
  http_calls (snd (pipeline payload))
  = [Http (sends "POST" "/documents" (create_kwargs (name_of payload)))].
Proof.
  intros Hcode Hc Hcreate.
  destruct (compile_stage_trace (openscad_code payload)) as (Hid & Hhttp & _).
  assert (Hrun : pipeline payload =
                 (inr (failure_response (py_str e)),
                  mkState (files (compiled (openscad_code payload)))
                    (calls (compiled (openscad_code payload))
                     ++ [Http (sends "POST" "/documents"
                                 (create_kwargs (name_of payload)))])
                    None)).
  { rewrite run_validated by assumption.
    unfold try_except. rewrite try_body_stages, Hc.
    unfold bind at 1. rewrite onshape_api_request_run.
    destruct Hcreate as [He | (doc & Hdoc & He)].
    - rewrite He. cbn [is_Exception].
      unfold handler, bind, get_doc_id, ret. cbn [doc_id]. rewrite Hid. reflexivity.
    - rewrite Hdoc. unfold bind, lift. rewrite He. cbn [is_Exception].
      unfold handler, bind, get_doc_id, ret. cbn [doc_id]. rewrite Hid. reflexivity. }
  rewrite Hrun. split; [reflexivity|].
  unfold http_calls in *. cbn [snd calls].
  rewrite filter_app, Hhttp. reflexivity.
Qed.

(** ** Every run follows one of the paths *)

(** Read the final state of a leaf as [sent reqs s d]. *)
Ltac fold_sent :=
  cbn [files calls doc_id]; rewrite <- ?app_assoc; cbn [app];
  match goal with
  | |- context [mkState (files ?s) (calls ?s ++ [Http ?a; Http ?b; Http ?c]) ?d] =>
      change (mkState (files s) (calls s ++ [Http a; Http b; Http c]) d)
        with (sent [a; b; c] s d)
  | |- context [mkState (files ?s) (calls ?s ++ [Http ?a; Http ?b]) ?d] =>
      change (mkState (files s) (calls s ++ [Http a; Http b]) d)
        with (sent [a; b] s d)
  | |- context [mkState (files ?s) (calls ?s ++ [Http ?a]) ?d] =>
      change (mkState (files s) (calls s ++ [Http a]) d) with (sent [a] s d)
  end.

(** Read the record of a leaf of the handler as the handler's choice. *)
Ltac fold_choice :=
  match goal with
  | Ht : PyStr.truthy ?d = true, He : _ = inl ?e
    |- run_path _ _ ?ps _ _ _ (inr (partial_success_response ?d ?n), _) =>
      replace (partial_success_response d n)
        with (if PyStr.truthy d then partial_success_response d n
              else failure_response (ps e))
        by (rewrite Ht; reflexivity)
  | Ht : PyStr.truthy ?d = false
    |- run_path _ _ ?ps _ ?en ?p (inr (failure_response (?ps ?e)), _) =>
      replace (failure_response (ps e))
        with (if PyStr.truthy d
              then partial_success_response d (doc_name_of p (utcnow en))
              else failure_response (ps e))
        by (rewrite Ht; reflexivity)
  end.

Lemma run_path_complete (payload : CreateFromOpenSCADRequest) :
  run_path ONSHAPE_API_URL auth_header py_str decode_ignore env payload
    (pipeline payload).
Proof.
  destruct (string_dec (openscad_code payload) "") as [Hcode|Hcode].
  - unfold run, create_from_openscad. rewrite Hcode. apply path_rejected. exact Hcode.
  - destruct (compile_stage_trace (openscad_code payload)) as (Hid & _).
    walk.
    all: try congruence.
    all: try fold_sent.
    all: first
           [ apply path_compile_error; assumption
           | eapply path_create_error; solve [ eauto ]
           | eapply path_complete; eassumption
           | fold_choice;
             eapply path_raise_after_commit;
             [ assumption | eassumption | eassumption | eassumption
             | solve [ eapply workspace_missing; eassumption
                     | eapply workspace_id_missing; eassumption
                     | eapply upload_raises; eassumption
                     | eapply blob_id_missing; eassumption
                     | eapply import_raises; eassumption ]
             | first [ left; reflexivity
                     | right; left; eexists; reflexivity
                     | right; right; do 2 eexists; reflexivity ] ] ].
Qed.

(** Split a statement about the run of [payload] along its paths. *)
Ltac paths payload :=
  let Hp := fresh "Hpath" in
  let out := fresh "out" in
  let Hout := fresh "Hout" in
  pose proof (run_path_complete payload) as Hp;
  remember (pipeline payload) as out eqn:Hout in *;
  clear Hout;
  destruct Hp as
    [ Pcode
    | p_e Pcode Pcompile
    | p_bytes p_e Pcode Pcompile Pcreate
    | p_bytes p_doc p_d p_e p_later Pcode Pcompile Pcreate Pid Praise Plater
    | p_bytes p_doc p_ws p_blob p_j p_d p_w p_b
        Pcode Pcompile Pcreate Pid Pws Pw Pup Pb Pim ].

(** ** The order of the calls *)

(** X1. The calls of a run are a beginning of one fixed sequence: the
    compiler with the 30 second bound, then createDocument, then the upload,
    then the import. Nothing is called twice, out of order, or retried. *)
Theorem calls_follow_fixed_order (payload : CreateFromOpenSCADRequest) :
  exists argv d w stl_bytes b,
    initial_segment (calls (snd (pipeline payload)))
      [Subprocess argv 30;
       Http (create_request ONSHAPE_API_URL auth_header env payload);
       Http (upload_request ONSHAPE_API_URL auth_header d w stl_bytes);
       Http (import_request ONSHAPE_API_URL auth_header d w b)].
Proof.
  unfold initial_segment.
  paths payload; cbn [snd sent calls initial].
  - exists [], "", "", "", "". eexists. reflexivity.
  - destruct (compile_stage_trace (openscad_code payload))
      as (_ & _ & argv & rest & Hrest).
    exists argv, "", "", "", "". eexists.
    change (?a :: ?l) with ([a] ++ l)%list at 1.
    rewrite Hrest, <- app_assoc. reflexivity.
  - destruct (compile_ok_inv _ _ Pcompile) as (scad & stl & err & _ & _ & _ & _ & _ & ->).
    eexists _, "", "", "", "". eexists. reflexivity.
  - destruct (compile_ok_inv _ _ Pcompile) as (scad & stl & err & _ & _ & _ & _ & _ & ->).
    destruct Plater as [-> | [(w & ->) | (w & b & ->)]]; cbn [map app].
    + eexists _, "", "", "", "". eexists. reflexivity.
    + eexists _, p_d, w, p_bytes, "". eexists. reflexivity.
    + eexists _, p_d, w, p_bytes, b. exists []. reflexivity.
  - destruct (compile_ok_inv _ _ Pcompile) as (scad & stl & err & _ & _ & _ & _ & _ & ->).
    eexists _, p_d, p_w, p_bytes, p_b. exists []. reflexivity.
Qed.

(** The remote calls and the handler leave the temporary files and the
    compiler alone. *)
Lemma run_after_compile (payload : CreateFromOpenSCADRequest) :
  openscad_code payload <> "" ->
  files (snd (pipeline payload)) = files (compiled (openscad_code payload)) /\
  compiler_calls (snd (pipeline payload))
  = compiler_calls (compiled (openscad_code payload)).
Proof.
  intros Hne. unfold compiler_calls.
  paths payload; try contradiction; cbn [snd sent files calls]; split; try reflexivity.
  all: rewrite filter_app.
  all: match goal with
       | |- (_ ++ filter is_subprocess (map Http ?l))%list = _ =>
           replace (filter is_subprocess (map Http l)) with (@nil event);
           [apply app_nil_r|]
       end.
  all: try reflexivity.
  destruct Plater as [-> | [(w' & ->) | (w' & b' & ->)]]; reflexivity.
Qed.

(** ** Temporary files and the compiler run *)

(** The compiler stage once both temporary files exist: the compiler has
    been run, exactly once. *)
Lemma compile_stage_runs_compiler (code scad_path stl_path : string) :
  scad_tmp env = inr scad_path ->
  scad_write env code = None ->
  stl_tmp env = inr stl_path ->
  calls (compiled code) = [Subprocess ["openscad"; "-o"; stl_path; scad_path] 30].
Proof.
  intros Hscad Hwrite Hstl.
  unfold after_compile, compile_stage, NamedTemporaryFile, write,
    run_openscad, subprocess_run, clean_up, remove, try_except, bind, lift, log,
    create_file, delete_file, raise, ret.
  rewrite Hscad, Hwrite, Hstl.
  repeat (cbn -[Z.eqb]; try break_match); reflexivity.
Qed.

(** X6. For a source that is not empty, once both temporary files exist
    the compiler is run exactly once in the request, as
    [openscad -o <mesh file> <source file>] with the 30 second bound,
    however the rest of the run goes. *)
Theorem compiler_runs_once
  (payload : CreateFromOpenSCADRequest) (scad_path stl_path : string) :
  openscad_code payload <> "" ->
  scad_tmp env = inr scad_path ->
  scad_write env (openscad_code payload) = None ->
  stl_tmp env = inr stl_path ->
  compiler_calls (snd (pipeline payload))
  = [Subprocess ["openscad"; "-o"; stl_path; scad_path] 30].
Proof.
  intros Hcode Hscad Hwrite Hstl.
  destruct (run_after_compile payload Hcode) as (_ & ->).
  unfold compiler_calls.
  rewrite (compile_stage_runs_compiler _ scad_path stl_path) by assumption.
  reflexivity.
Qed.

(** X7. When removing the source file raises [OSError], the error is
    swallowed and the mesh is used, but the removal of the mesh file is
    skipped as well: both temporary files are still there at the end of the
    request. *)
Theorem source_removal_failure_keeps_both_files
  (payload : CreateFromOpenSCADRequest) (scad_path stl_path err stl_bytes t : string) :
  openscad_code payload <> "" ->
  scad_tmp env = inr scad_path ->
  scad_write env (openscad_code payload) = None ->
  stl_tmp env = inr stl_path ->
  openscad env ["openscad"; "-o"; stl_path; scad_path] = Exited 0 err ->
  stl_read env stl_path = inr stl_bytes ->
  os_remove env scad_path = Some t ->
  compile (openscad_code payload) = inr stl_bytes /\
  files (snd (pipeline payload)) = [stl_path; scad_path].
Proof.
  intros Hcode Hscad Hwrite Hstl Hrun Hread Hrm.
  destruct (run_after_compile payload Hcode) as (-> & _).
  unfold compile_result, after_compile, compile_stage, NamedTemporaryFile, write,
    run_openscad, subprocess_run, clean_up, remove, try_except, bind, lift, log,
    create_file, delete_file, raise, ret.
  rewrite Hscad, Hwrite, Hstl. cbv beta iota.
  cbn [calls files doc_id initial app].
  rewrite Hrun. cbv beta iota. cbn [Z.eqb].
  rewrite Hread. cbv beta iota. rewrite Hrm. split; reflexivity.
Qed.

(** X8. When the mesh has been read and both removals go through, no
    temporary file is left at the end of the request, whatever the remote
    API does afterwards. *)
Theorem no_temp_file_left_after_read
  (payload : CreateFromOpenSCADRequest) (scad_path stl_path err stl_bytes : string) :
  openscad_code payload <> "" ->
  scad_tmp env = inr scad_path ->
  scad_write env (openscad_code payload) = None ->
  stl_tmp env = inr stl_path ->
  openscad env ["openscad"; "-o"; stl_path; scad_path] = Exited 0 err ->
  stl_read env stl_path = inr stl_bytes ->
  os_remove env scad_path = None ->
  os_remove env stl_path = None ->
  files (snd (pipeline payload)) = [].
Proof.
  intros Hcode Hscad Hwrite Hstl Hrun Hread Hrm1 Hrm2.
  destruct (run_after_compile payload Hcode) as (-> & _).
  apply (temp_files_removed_after_read decode_ignore env (openscad_code payload)
           scad_path stl_path err stl_bytes); assumption.
Qed.

(** ** The Document Client on answers that are [ok] *)

Lemma api_blank_body (method path : string) (kwargs : body) (resp : Response) :
  http env (sends method path kwargs) = inr resp ->
  ok resp = true ->
  PyStr.all_space (text resp) = true ->
  api method path kwargs = inr empty_json.
Proof.
  intros Hresp Hok Hsp.
  unfold api_result, onshape_api_request, bind, log, lift, raise, ret.
  cbv beta iota. rewrite Hresp. cbv beta iota. rewrite Hok. cbn [negb fst].
  apply strip_empty_iff in Hsp. rewrite Hsp. reflexivity.
Qed.

(** X9. A call passes a transport exception on unchanged, returns what
    [resp.json()] gives (its parse error included) for an [ok] answer whose
    body is not blank (has a character that is not white space to
    [str.strip]), and in every case adds exactly its own request to the
    trace. *)
Theorem api_passes_on_what_it_gets
  (method path : string) (kwargs : body) (s : state) :
  (forall e, http env (sends method path kwargs) = inl e ->
             fst (api_request method path kwargs s) = inl e) /\
  (forall resp, http env (sends method path kwargs) = inr resp ->
                ok resp = true -> PyStr.all_space (text resp) = false ->
                fst (api_request method path kwargs s) = resp_json resp) /\
  calls (snd (api_request method path kwargs s))
  = (calls s ++ [Http (sends method path kwargs)])%list.
Proof.
  rewrite onshape_api_request_run. cbn [fst snd calls].
  unfold api_result, onshape_api_request, bind, log, lift, raise, ret.
  cbv beta iota.
  repeat split.
  - intros e He. rewrite He. reflexivity.
  - intros resp Hresp Hok Hsp. rewrite Hresp. cbv beta iota. rewrite Hok. cbn [negb].
    destruct (PyStr.truthy (PyStr.strip (text resp))) eqn:Ht; [reflexivity|].
    apply truthy_false_iff, strip_empty_iff in Ht. congruence.
Qed.

(** ** Outcomes and what they say about the run *)

(** X4. An [ok] answer to createDocument with an empty or blank body (white
    space only, that of Unicode included) is read as the empty object, so the lookup of [id] raises and the outcome is
    the Failure record with the text of [KeyError('id')]; no upload or import
    follows. *)
Theorem blank_create_answer_gives_key_error
  (payload : CreateFromOpenSCADRequest) (stl_bytes : string) (resp : Response) :
  openscad_code payload <> "" ->
  compile (openscad_code payload) = inr stl_bytes ->
  http env (create_request ONSHAPE_API_URL auth_header env payload) = inr resp ->
  ok resp = true ->
  PyStr.all_space (text resp) = true ->
  fst (pipeline payload) = inr (failure_response (py_str (KeyError "id"))) /\
  http_calls (snd (pipeline payload))
  = [Http (create_request ONSHAPE_API_URL auth_header env payload)].
Proof.
  intros Hne Hc Hresp Hok Hsp.
  pose proof (api_blank_body "POST" "/documents" (create_kwargs (name_of payload))
                resp Hresp Hok Hsp) as Hblank.
  destruct (compile_stage_trace (openscad_code payload)) as (_ & Hhttp & _).
  unfold http_calls in *.
  paths payload; try contradiction; try congruence.
  - destruct Pcreate as [He | (doc & Hdoc & He)]; [congruence|].
    rewrite Hblank in Hdoc. injection Hdoc as <-.
    cbn in He. injection He as <-.
    cbn [fst snd sent calls map]. rewrite filter_app, Hhttp. split; reflexivity.
  - rewrite Hblank in Pcreate. injection Pcreate as <-. discriminate Pid.
  - rewrite Hblank in Pcreate. injection Pcreate as <-. discriminate Pid.
Qed.

(** X10. A Success record and a PartialSuccess record are never equal:
    their messages differ. *)
Theorem success_and_partial_differ (d name d' name' : string) :
  success_response d name <> partial_success_response d' name'.
Proof.
  intros H. apply (f_equal message) in H. cbn in H. discriminate H.
Qed.

(** X11. The Success record is returned only when the compiler stage,
    createDocument, the upload and the import have all succeeded; its docId
    is the id createDocument returned, its name is the request's name, and
    the remote calls made are exactly these three, in this order. *)
Theorem success_only_after_import
  (payload : CreateFromOpenSCADRequest) (d name : string) :
  fst (pipeline payload) = inr (success_response d name) ->
  name = name_of payload /\
  exists stl_bytes doc ws blob j w b,
    compile (openscad_code payload) = inr stl_bytes /\
    api "POST" "/documents" (create_kwargs (name_of payload)) = inr doc /\
    get_string doc "id" = inr d /\
    get_object doc "defaultWorkspace" = inr ws /\
    get_string ws "id" = inr w /\
    api "POST" (upload_path d w "model.stl") (upload_kwargs "model.stl" stl_bytes)
    = inr blob /\
    get_string blob "id" = inr b /\
    api "POST" (import_path d w) (import_kwargs b) = inr j /\
    http_calls (snd (pipeline payload))
    = [Http (create_request ONSHAPE_API_URL auth_header env payload);
       Http (upload_request ONSHAPE_API_URL auth_header d w stl_bytes);
       Http (import_request ONSHAPE_API_URL auth_header d w b)].
Proof.
  intros Hr.
  destruct (compile_stage_trace (openscad_code payload)) as (_ & Hhttp & _).
  unfold http_calls in *.
  paths payload; cbn [fst] in Hr; try discriminate Hr.
  - assert (Hm := f_equal (fun x => match x with inr r => message r | inl _ => None end) Hr).
    destruct (PyStr.truthy p_d); cbn in Hm; discriminate Hm.
  - assert (Hd := f_equal (fun x => match x with inr r => docId r | inl _ => None end) Hr).
    assert (Hn := f_equal (fun x => match x with inr r => docName r | inl _ => None end) Hr).
    cbn in Hd, Hn. injection Hd as ->. injection Hn as <-.
    split; [reflexivity|].
    exists p_bytes, p_doc, p_ws, p_blob, p_j, p_w, p_b.
    repeat (split; [assumption|]).
    cbn [snd sent calls map]. rewrite filter_app, Hhttp. reflexivity.
Qed.

(** X12. Whenever the returned record has success true, createDocument
    was called and returned the id the record reports, and the record's name
    and URL are the request's name and the viewer URL of that id. *)
Theorem reported_document_was_created
  (payload : CreateFromOpenSCADRequest) (r : CreateFromOpenSCADResponse) :
  fst (pipeline payload) = inr r ->
  success r = true ->
  exists stl_bytes doc d,
    compile (openscad_code payload) = inr stl_bytes /\
    api "POST" "/documents" (create_kwargs (name_of payload)) = inr doc /\
    get_string doc "id" = inr d /\
    docId r = Some d /\
    docName r = Some (name_of payload) /\
    url r = Some ("https://cad.onshape.com/documents/" ++ d) /\
    In (Http (create_request ONSHAPE_API_URL auth_header env payload))
       (calls (snd (pipeline payload))).
Proof.
  intros Hr Hs.
  paths payload; cbn [fst] in Hr; try discriminate Hr; injection Hr as <-;
    try discriminate Hs.
  - destruct (PyStr.truthy p_d); [|discriminate Hs].
    exists p_bytes, p_doc, p_d. repeat (split; [first [assumption|reflexivity]|]).
    cbn [snd sent calls map]. apply in_or_app. right. left. reflexivity.
  - exists p_bytes, p_doc, p_d. repeat (split; [first [assumption|reflexivity]|]).
    cbn [snd sent calls map]. apply in_or_app. right. left. reflexivity.
Qed.

(** X13. Whenever the returned record has success false, its error is the
    text of an exception, and if the compiler stage succeeded and
    createDocument answered with an id, that id is the empty string. *)
Theorem failure_means_no_document_id
  (payload : CreateFromOpenSCADRequest) (r : CreateFromOpenSCADResponse) :
  fst (pipeline payload) = inr r ->
  success r = false ->
  (exists e, error r = Some (py_str e)) /\
  (forall stl_bytes doc d,
      compile (openscad_code payload) = inr stl_bytes ->
      api "POST" "/documents" (create_kwargs (name_of payload)) = inr doc ->
      get_string doc "id" = inr d ->
      d = "").
Proof.
  intros Hr Hs.
  paths payload; cbn [fst] in Hr; try discriminate Hr; injection Hr as <-;
    try discriminate Hs.
  - split; [eexists; reflexivity|]. intros; congruence.
  - split; [eexists; reflexivity|]. intros b0 doc0 d0 Hc0 Hdoc0 Hid0.
    destruct Pcreate as [He | (doc & Hdoc & He)]; congruence.
  - destruct (PyStr.truthy p_d) eqn:Ht; [discriminate Hs|].
    apply truthy_false_iff in Ht. subst p_d.
    split; [eexists; reflexivity|]. intros; congruence.
Qed.

(** ** The document name *)

(** X14. The document name is never empty: a supplied non-empty name is
    used as it is, and a supplied empty name is replaced by the timestamped
    default. *)
Theorem doc_name_never_empty (payload : CreateFromOpenSCADRequest) (now : datetime) :
  doc_name_of payload now <> "" /\
  (forall s, document_name payload = Some s -> s <> "" -> doc_name_of payload now = s) /\
  (document_name payload = Some "" ->
   doc_name_of payload now = "AI Model " ++ isoformat now).
Proof.
  unfold doc_name_of, or_else. repeat split.
  - destruct (document_name payload) as [[|c s]|]; cbn; discriminate.
  - intros s -> Hs. destruct s; [contradiction|reflexivity].
  - intros ->. reflexivity.
Qed.

(** ** Credentials *)

Lemma compile_stage_calls_are_local (code : string) :
  Forall (carries_credentials ONSHAPE_API_URL auth_header) (calls (compiled code)).
Proof.
  destruct (compile_stage_trace code) as (_ & _ & argv & rest & Hrest).
  destruct (calls (compiled code)) as [|e l]; [constructor|].
  injection Hrest as <- Hl.
  destruct l; [|discriminate Hl].
  repeat constructor.
Qed.

Lemma calls_carry_credentials (payload : CreateFromOpenSCADRequest) :
  Forall (carries_credentials ONSHAPE_API_URL auth_header)
    (calls (snd (pipeline payload))).
Proof.
  pose proof (compile_stage_calls_are_local (openscad_code payload)) as Hlocal.
  paths payload; cbn [snd sent calls initial]; try exact Hlocal; try constructor.
  all: apply Forall_app; split; [exact Hlocal|].
  all: try destruct Plater as [-> | [(w' & ->) | (w' & b' & ->)]]; cbn [map].
  all: repeat (constructor; [split; [reflexivity|eexists; reflexivity]|]).
  all: constructor.
Qed.

End Coverage.

(* ===================================================================== *)
(** * Start-up *)
(* ===================================================================== *)

(** X15. The configuration loads exactly when ONSHAPE_ACCESS_KEY and
    ONSHAPE_SECRET_KEY are both set to non-empty strings; otherwise start-up
    stops with the RuntimeError. *)
Theorem startup_requires_both_keys (environ : string -> option string) :
  ((exists c, load_config environ = inr c) <->
   (exists a k, environ "ONSHAPE_ACCESS_KEY" = Some a /\ a <> "" /\
                environ "ONSHAPE_SECRET_KEY" = Some k /\ k <> "")) /\
  ((forall c, load_config environ <> inr c) ->
   load_config environ
   = inl (RuntimeError "ONSHAPE_ACCESS_KEY and ONSHAPE_SECRET_KEY must be set in env")).
Proof.
  unfold load_config, unset.
  destruct (environ "ONSHAPE_ACCESS_KEY") as [[|c1 a]|];
    destruct (environ "ONSHAPE_SECRET_KEY") as [[|c2 k]|]; cbn.
  all: split; [split|].
  all: try (intros [c Hc]; discriminate Hc).
  all: try (intros (a0 & k0 & Ha & Hna & Hk & Hnk); congruence).
  all: try reflexivity.
  - intros _. do 2 eexists. repeat split; discriminate.
  - intros _. eexists. reflexivity.
  - intros H. exfalso. eapply H. reflexivity.
Qed.

(** X16. With both keys set, every remote call of every request goes to
    a path under the configured API URL (the default when ONSHAPE_API_URL is
    not set) and carries the header [Authorization: Basic
    base64(access:secret)] and [Accept: application/json]. *)
Theorem served_requests_carry_configured_credentials
  (environ : string -> option string) (py_str : exn -> string)
  (decode_ignore : string -> string) (env : Env)
  (payload : CreateFromOpenSCADRequest) (a k : string) :
  environ "ONSHAPE_ACCESS_KEY" = Some a -> a <> "" ->
  environ "ONSHAPE_SECRET_KEY" = Some k -> k <> "" ->
  exists out,
    serve environ py_str decode_ignore env payload = inr out /\
    Forall (carries_credentials
              (getenv environ "ONSHAPE_API_URL" "https://cad.onshape.com/api/v12")
              ("Basic " ++ Base64.b64encode (a ++ ":" ++ k)))
      (calls (snd out)).
Proof.
  intros Ha Hna Hk Hnk.
  unfold serve, load_config, unset. rewrite Ha, Hk.
  apply truthy_true_iff in Hna, Hnk. rewrite Hna, Hnk. cbn [negb orb].
  eexists. split; [reflexivity|].
  cbn [cfg_api_url cfg_auth_header].
  apply calls_carry_credentials.
Qed.

(* ===================================================================== *)
(** * The credential header *)
(* ===================================================================== *)

Local Open Scope N_scope.

Lemma sextet_index (n : N) :
  (n < 64)%N -> Base64.position (Base64.sextet n) Base64.alphabet = Some (N.to_nat n) /\ Base64.sextet n <> "="%char.
Proof.
  intros H. assert (Hn : (N.to_nat n < 64)%nat) by lia.
  unfold Base64.sextet. generalize dependent (N.to_nat n). intros m Hm.
  do 64 (destruct m as [|m]; [split; [reflexivity|discriminate]|]).
  lia.
Qed.

Lemma sextet_inj a b : (a < 64)%N -> (b < 64)%N -> Base64.sextet a = Base64.sextet b -> a = b.
Proof.
  intros Ha Hb H.
  destruct (sextet_index a Ha) as [Ia _], (sextet_index b Hb) as [Ib _].
  rewrite H in Ia. rewrite Ia in Ib. injection Ib. lia.
Qed.



Lemma split16 (x y x' y' : N) :
  y < 16 -> y' < 16 -> x * 16 + y = x' * 16 + y' -> x = x' /\ y = y'.
Proof. lia. Qed.

Lemma split4 (x y x' y' : N) :
  y < 4 -> y' < 4 -> x * 4 + y = x' * 4 + y' -> x = x' /\ y = y'.
Proof. lia. Qed.

Lemma join_base (m a b : N) :
  m <> 0 -> a / m = b / m -> a mod m = b mod m -> a = b.
Proof.
  intros Hm Hq Hr.
  rewrite (N.div_mod a m Hm), (N.div_mod b m Hm), Hq, Hr. reflexivity.
Qed.

Lemma group3_inj (a b c a' b' c' : N) (r r' : string) :
  a < 256 -> b < 256 -> c < 256 -> a' < 256 -> b' < 256 -> c' < 256 ->
  Base64.group3 a b c r = Base64.group3 a' b' c' r' -> a = a' /\ b = b' /\ c = c' /\ r = r'.
Proof.
  intros Ha Hb Hc Ha' Hb' Hc' H. unfold Base64.group3 in H.
  injection H as H1 H2 H3 H4 Hr.
  assert (Hq4 : forall x, x < 256 -> x / 4 < 64) by (intros; apply N.Div0.div_lt_upper_bound; lia).
  assert (Hq16 : forall x, x < 256 -> x / 16 < 16) by (intros; apply N.Div0.div_lt_upper_bound; lia).
  assert (Hq64 : forall x, x < 256 -> x / 64 < 4) by (intros; apply N.Div0.div_lt_upper_bound; lia).
  assert (Hm4 : forall x, x mod 4 < 4) by (intros; apply N.mod_lt; lia).
  assert (Hm16 : forall x, x mod 16 < 16) by (intros; apply N.mod_lt; lia).
  assert (Hm64 : forall x, x mod 64 < 64) by (intros; apply N.mod_lt; lia).
  pose proof (Hq4 a Ha). pose proof (Hq4 a' Ha').
  pose proof (Hq16 b Hb). pose proof (Hq16 b' Hb').
  pose proof (Hq64 c Hc). pose proof (Hq64 c' Hc').
  pose proof (Hm4 a). pose proof (Hm4 a'). pose proof (Hm16 b). pose proof (Hm16 b').
  pose proof (Hm64 c). pose proof (Hm64 c').
  apply sextet_inj in H1; [|lia..].
  apply sextet_inj in H2; [|lia..].
  apply sextet_inj in H3; [|lia..].
  apply sextet_inj in H4; [|lia..].
  apply split16 in H2; [|lia..]. destruct H2 as [H2a H2b].
  apply split4 in H3; [|lia..]. destruct H3 as [H3a H3b].
  repeat split.
  - apply (join_base 4); [lia|assumption..].
  - apply (join_base 16); [lia|assumption..].
  - apply (join_base 64); [lia|assumption..].
  - exact Hr.
Qed.

Lemma sextet_not_pad (n : N) : n < 64 -> Base64.sextet n <> "="%char.
Proof. intros H. apply sextet_index. exact H. Qed.

Lemma q4 (a : N) : a < 256 -> a / 4 < 64.
Proof. intros. apply N.Div0.div_lt_upper_bound; lia. Qed.
Lemma q16 (b : N) : b < 256 -> b / 16 < 16.
Proof. intros. apply N.Div0.div_lt_upper_bound; lia. Qed.
Lemma q64 (c : N) : c < 256 -> c / 64 < 4.
Proof. intros. apply N.Div0.div_lt_upper_bound; lia. Qed.
Lemma m4 (a : N) : a mod 4 < 4.
Proof. apply N.mod_lt; lia. Qed.
Lemma m16 (b : N) : b mod 16 < 16.
Proof. apply N.mod_lt; lia. Qed.
Lemma m64 (c : N) : c mod 64 < 64.
Proof. apply N.mod_lt; lia. Qed.

Lemma group1_inj (a a' : N) :
  a < 256 -> a' < 256 -> Base64.group1 a = Base64.group1 a' -> a = a'.
Proof.
  intros Ha Ha' H. injection H as H1 H2.
  pose proof (q4 a Ha). pose proof (q4 a' Ha'). pose proof (m4 a). pose proof (m4 a').
  apply sextet_inj in H1; [|lia..].
  apply sextet_inj in H2; [|lia..].
  apply (join_base 4); [lia|assumption|lia].
Qed.

Lemma group2_inj (a b a' b' : N) :
  a < 256 -> b < 256 -> a' < 256 -> b' < 256 ->
  Base64.group2 a b = Base64.group2 a' b' -> a = a' /\ b = b'.
Proof.
  intros Ha Hb Ha' Hb' H. injection H as H1 H2 H3.
  pose proof (q4 a Ha). pose proof (q4 a' Ha'). pose proof (m4 a). pose proof (m4 a').
  pose proof (q16 b Hb). pose proof (q16 b' Hb'). pose proof (m16 b). pose proof (m16 b').
  apply sextet_inj in H1; [|lia..].
  apply sextet_inj in H2; [|lia..].
  apply sextet_inj in H3; [|lia..].
  apply split16 in H2; [|lia..]. destruct H2 as [H2a H2b].
  split.
  - apply (join_base 4); [lia|assumption..].
  - apply (join_base 16); [lia|assumption|lia].
Qed.

Lemma N_of_ascii_inj (x y : ascii) : N_of_ascii x = N_of_ascii y -> x = y.
Proof.
  intros H. rewrite <- (ascii_N_embedding x), <- (ascii_N_embedding y), H. reflexivity.
Qed.

Ltac sextet_bound :=
  match goal with
  | |- ?b mod 16 * 4 < 64 => pose proof (m16 b); lia
  | |- ?b mod 16 * 4 + N_of_ascii ?c / 64 < 64 =>
      pose proof (m16 b); pose proof (q64 _ (N_ascii_bounded c)); lia
  | |- ?c mod 64 < 64 => apply m64
  end.

Ltac pad_clash H :=
  injection H; intros; exfalso;
  match goal with
  | E : Base64.sextet ?n = "="%char |- _ => revert E; apply sextet_not_pad; sextet_bound
  | E : "="%char = Base64.sextet ?n |- _ =>
      symmetry in E; revert E; apply sextet_not_pad; sextet_bound
  end.

Lemma b64encode_separates (s : string) :
  Base64.separates s
  /\ (forall a, Base64.separates (String a s))
  /\ (forall a b, Base64.separates (String a (String b s))).
Proof.
  induction s as [|c s (IH0 & IH1 & IH2)].
  - repeat split.
    + intros [|a' [|b' [|c' r']]]; cbn; intros H; [reflexivity|discriminate H..].
    + intros a [|a' [|b' [|c' r']]]; cbn [Base64.b64encode]; intros H.
      * discriminate H.
      * apply group1_inj in H; [|apply N_ascii_bounded..].
        apply N_of_ascii_inj in H. congruence.
      * pad_clash H.
      * pad_clash H.
    + intros a b [|a' [|b' [|c' r']]]; cbn [Base64.b64encode]; intros H.
      * discriminate H.
      * pad_clash H.
      * apply group2_inj in H; [|apply N_ascii_bounded..].
        destruct H as [Ha Hb]. apply N_of_ascii_inj in Ha, Hb. congruence.
      * pad_clash H.
  - repeat split.
    + apply IH1.
    + intros a. apply IH2.
    + intros a b [|a' [|b' [|c' r']]]; cbn [Base64.b64encode]; intros H.
      * discriminate H.
      * pad_clash H.
      * pad_clash H.
      * apply group3_inj in H; [|apply N_ascii_bounded..].
        destruct H as (Ha & Hb & Hc & Hr).
        apply N_of_ascii_inj in Ha, Hb, Hc. apply IH0 in Hr. congruence.
Qed.

Lemma b64encode_inj (s1 s2 : string) : Base64.b64encode s1 = Base64.b64encode s2 -> s1 = s2.
Proof. apply b64encode_separates. Qed.

Local Close Scope N_scope.

Lemma colon_split (a1 k1 a2 k2 : string) :
  colon_free a1 = true -> colon_free a2 = true ->
  a1 ++ ":" ++ k1 = a2 ++ ":" ++ k2 -> a1 = a2 /\ k1 = k2.
Proof.
  revert a2. induction a1 as [|c a1 IH]; intros [|c' a2] H1 H2 H; cbn in *.
  - injection H as ->. split; reflexivity.
  - injection H as <- _. discriminate H2.
  - injection H as -> _. discriminate H1.
  - injection H as -> H.
    apply andb_true_iff in H1, H2. destruct H1 as [_ H1], H2 as [_ H2].
    destruct (IH a2 H1 H2 H) as [-> ->]. split; reflexivity.
Qed.

(** X17. Two configurations whose access keys contain no colon have the
    same credential header only when they have the same access key and the
    same secret key. *)
Theorem auth_header_determines_keys
  (environ1 environ2 : string -> option string) (c1 c2 : Config) (a1 a2 : string) :
  load_config environ1 = inr c1 ->
  load_config environ2 = inr c2 ->
  environ1 "ONSHAPE_ACCESS_KEY" = Some a1 -> colon_free a1 = true ->
  environ2 "ONSHAPE_ACCESS_KEY" = Some a2 -> colon_free a2 = true ->
  cfg_auth_header c1 = cfg_auth_header c2 ->
  environ1 "ONSHAPE_ACCESS_KEY" = environ2 "ONSHAPE_ACCESS_KEY" /\
  environ1 "ONSHAPE_SECRET_KEY" = environ2 "ONSHAPE_SECRET_KEY".
Proof.
  unfold load_config. intros L1 L2 A1 F1 A2 F2 H.
  rewrite A1 in *. rewrite A2 in *.
  destruct (environ1 "ONSHAPE_SECRET_KEY") as [k1|];
    [|rewrite orb_true_r in L1; discriminate L1].
  destruct (environ2 "ONSHAPE_SECRET_KEY") as [k2|];
    [|rewrite orb_true_r in L2; discriminate L2].
  destruct (unset (Some a1) || unset (Some k1)); [discriminate L1|].
  destruct (unset (Some a2) || unset (Some k2)); [discriminate L2|].
  injection L1 as <-. injection L2 as <-. cbn [cfg_auth_header] in H.
  apply (append_inv_head "Basic ") in H. apply b64encode_inj in H.
  apply colon_split in H; [|assumption..].
  destruct H as [-> ->]. split; reflexivity.
Qed.

(* ===================================================================== *)
(** * The further properties on the sample runs *)
(* ===================================================================== *)

(** A full disk: the source file cannot be created. *)
Lemma compile_stage_error_witness :
  fst (Sample.go Sample.disk_full (Sample.request "cube(1);"))
  = inr (failure_response "No space left on device") /\
  http_calls (snd (Sample.go Sample.disk_full (Sample.request "cube(1);"))) = [].
Proof.
  apply (compile_stage_error_gives_failure Sample.api_url Sample.auth Sample.str_exn
           Sample.decode Sample.disk_full (Sample.request "cube(1);")
           (OSError "No space left on device")).
  - discriminate.
  - reflexivity.
Defined.

(** createDocument answered with 401. *)
Lemma create_failure_witness :
  fst (Sample.go Sample.all_down (Sample.request "cube(1);"))
  = inr (failure_response "401: Onshape API error 401: unauthorized") /\
  http_calls (snd (Sample.go Sample.all_down (Sample.request "cube(1);")))
  = [Http (request_of Sample.api_url Sample.auth "POST" "/documents"
            (create_kwargs "AI Model 2024-03-09T07:05:00"))].
Proof.
  apply (create_failure_gives_failure Sample.api_url Sample.auth Sample.str_exn
           Sample.decode Sample.all_down (Sample.request "cube(1);") "solid"
           (HTTPException 401 "Onshape API error 401: unauthorized")).
  - discriminate.
  - reflexivity.
  - left. reflexivity.
Defined.

(** createDocument answered with a no-break space, a line feed and a
    space. *)
Lemma blank_create_answer_witness :
  fst (Sample.go Sample.blank (Sample.request "cube(1);"))
  = inr (failure_response "'id'") /\
  http_calls (snd (Sample.go Sample.blank (Sample.request "cube(1);")))
  = [Http (request_of Sample.api_url Sample.auth "POST" "/documents"
            (create_kwargs "AI Model 2024-03-09T07:05:00"))].
Proof.
  apply (blank_create_answer_gives_key_error Sample.api_url Sample.auth Sample.str_exn
           Sample.decode Sample.blank (Sample.request "cube(1);") "solid"
           (Sample.ok_response Sample.blank_text empty_json)).
  - discriminate.
  - reflexivity.
  - reflexivity.
  - reflexivity.
  - reflexivity.
Defined.

(** The created document has the empty id and the upload is rejected. *)
Lemma empty_id_gives_failure_witness :
  fst (Sample.go Sample.empty_id_upload_down (Sample.request "cube(1);"))
  = inr (failure_response "503: Onshape API error 503: unavailable").
Proof.
  apply (empty_id_gives_failure Sample.api_url Sample.auth Sample.str_exn Sample.decode
           Sample.empty_id_upload_down (Sample.request "cube(1);") "solid"
           (Sample.document "")
           (HTTPException 503 "Onshape API error 503: unavailable")).
  - discriminate.
  - reflexivity.
  - reflexivity.
  - reflexivity.
  - apply (upload_raises Sample.api_url Sample.auth Sample.empty_id_upload_down
             (Sample.document "") "" "solid" (JObject [("id", "w1")] []) "w1");
      reflexivity.
Defined.

(** A compiler that times out has still been run once. *)
Lemma compiler_runs_once_witness :
  compiler_calls (snd (Sample.go Sample.slow (Sample.request "cube(1);")))
  = [Subprocess ["openscad"; "-o"; "/tmp/b.stl"; "/tmp/a.scad"] 30].
Proof.
  apply (compiler_runs_once Sample.api_url Sample.auth Sample.str_exn Sample.decode
           Sample.slow (Sample.request "cube(1);") "/tmp/a.scad" "/tmp/b.stl").
  - discriminate.
  - reflexivity.
  - reflexivity.
  - reflexivity.
Defined.

(** Removals denied: the run goes on and both files stay. *)
Lemma source_removal_failure_witness :
  compile_result Sample.decode Sample.removal_denied "cube(1);" = inr "solid" /\
  files (snd (Sample.go Sample.removal_denied (Sample.request "cube(1);")))
  = ["/tmp/b.stl"; "/tmp/a.scad"].
Proof.
  apply (source_removal_failure_keeps_both_files Sample.api_url Sample.auth
           Sample.str_exn Sample.decode Sample.removal_denied
           (Sample.request "cube(1);") "/tmp/a.scad" "/tmp/b.stl" "" "solid"
           "Permission denied").
  - discriminate.
  - reflexivity.
  - reflexivity.
  - reflexivity.
  - reflexivity.
  - reflexivity.
  - reflexivity.
Defined.

(** The upload is rejected after the files were removed. *)
Lemma no_temp_file_left_witness :
  files (snd (Sample.go Sample.upload_down (Sample.request "cube(1);"))) = [].
Proof.
  apply (no_temp_file_left_after_read Sample.api_url Sample.auth Sample.str_exn
           Sample.decode Sample.upload_down (Sample.request "cube(1);")
           "/tmp/a.scad" "/tmp/b.stl" "" "solid").
  - discriminate.
  - reflexivity.
  - reflexivity.
  - reflexivity.
  - reflexivity.
  - reflexivity.
  - reflexivity.
  - reflexivity.
Defined.

(** A refused connection, and a parsed answer. *)
Lemma api_passes_on_witness :
  fst (onshape_api_request Sample.api_url Sample.auth Sample.offline "POST" "/documents"
         (create_kwargs "n") initial)
  = inl (RequestException "Connection refused") /\
  fst (onshape_api_request Sample.api_url Sample.auth Sample.good "POST" "/documents"
         (create_kwargs "n") initial)
  = inr (Sample.document "d1").
Proof.
  split.
  - apply (proj1 (api_passes_on_what_it_gets Sample.api_url Sample.auth Sample.offline
                    "POST" "/documents" (create_kwargs "n") initial)).
    reflexivity.
  - apply (proj1 (proj2 (api_passes_on_what_it_gets Sample.api_url Sample.auth
                           Sample.good "POST" "/documents" (create_kwargs "n") initial))
             (Sample.ok_response "{...}" (Sample.document "d1"))).
    + reflexivity.
    + reflexivity.
    + reflexivity.
Defined.

(** The complete sample run and what its Success record implies. *)
Lemma success_only_after_import_witness :
  "AI Model 2024-03-09T07:05:00" = doc_name_of (Sample.request "cube(1);") Sample.now /\
  exists stl_bytes doc ws blob j w b,
    compile_result Sample.decode Sample.good "cube(1);" = inr stl_bytes /\
    api_result Sample.api_url Sample.auth Sample.good "POST" "/documents"
      (create_kwargs (doc_name_of (Sample.request "cube(1);") Sample.now)) = inr doc /\
    get_string doc "id" = inr "d1" /\
    get_object doc "defaultWorkspace" = inr ws /\
    get_string ws "id" = inr w /\
    api_result Sample.api_url Sample.auth Sample.good "POST"
      (upload_path "d1" w "model.stl") (upload_kwargs "model.stl" stl_bytes) = inr blob /\
    get_string blob "id" = inr b /\
    api_result Sample.api_url Sample.auth Sample.good "POST" (import_path "d1" w)
      (import_kwargs b) = inr j /\
    http_calls (snd (Sample.go Sample.good (Sample.request "cube(1);")))
    = [Http (create_request Sample.api_url Sample.auth Sample.good
               (Sample.request "cube(1);"));
       Http (upload_request Sample.api_url Sample.auth "d1" w stl_bytes);
       Http (import_request Sample.api_url Sample.auth "d1" w b)].
Proof.
  apply (success_only_after_import Sample.api_url Sample.auth Sample.str_exn
           Sample.decode Sample.good (Sample.request "cube(1);") "d1"
           "AI Model 2024-03-09T07:05:00").
  reflexivity.
Defined.

(** The PartialSuccess record of the run with the upload rejected. *)
Lemma reported_document_witness :
  exists stl_bytes doc d,
    compile_result Sample.decode Sample.upload_down "cube(1);" = inr stl_bytes /\
    api_result Sample.api_url Sample.auth Sample.upload_down "POST" "/documents"
      (create_kwargs (doc_name_of (Sample.request "cube(1);") Sample.now)) = inr doc /\
    get_string doc "id" = inr d /\
    docId (partial_success_response "d1" "AI Model 2024-03-09T07:05:00") = Some d /\
    docName (partial_success_response "d1" "AI Model 2024-03-09T07:05:00")
    = Some (doc_name_of (Sample.request "cube(1);") Sample.now) /\
    url (partial_success_response "d1" "AI Model 2024-03-09T07:05:00")
    = Some ("https://cad.onshape.com/documents/" ++ d) /\
    In (Http (create_request Sample.api_url Sample.auth Sample.upload_down
                (Sample.request "cube(1);")))
       (calls (snd (Sample.go Sample.upload_down (Sample.request "cube(1);")))).
Proof.
  apply (reported_document_was_created Sample.api_url Sample.auth Sample.str_exn
           Sample.decode Sample.upload_down (Sample.request "cube(1);")
           (partial_success_response "d1" "AI Model 2024-03-09T07:05:00")).
  - reflexivity.
  - reflexivity.
Defined.

(** The Failure record of the run with a syntax error. *)
Lemma failure_means_no_document_id_witness :
  (exists e, error (failure_response "500: OpenSCAD error: syntax error")
             = Some (Sample.str_exn e)) /\
  (forall stl_bytes doc d,
      compile_result Sample.decode Sample.syntax_error "cube(" = inr stl_bytes ->
      api_result Sample.api_url Sample.auth Sample.syntax_error "POST" "/documents"
        (create_kwargs (doc_name_of (Sample.request "cube(") Sample.now)) = inr doc ->
      get_string doc "id" = inr d ->
      d = "").
Proof.
  apply (failure_means_no_document_id Sample.api_url Sample.auth Sample.str_exn
           Sample.decode Sample.syntax_error (Sample.request "cube(")
           (failure_response "500: OpenSCAD error: syntax error")).
  - reflexivity.
  - reflexivity.
Defined.

(** A request with the empty name, and one with a name. *)
Lemma doc_name_never_empty_witness :
  doc_name_of (mkPayload "cube(1);" (Some "")) Sample.now
  = "AI Model 2024-03-09T07:05:00" /\
  doc_name_of (mkPayload "cube(1);" (Some "bracket")) Sample.now = "bracket".
Proof.
  split.
  - apply (proj2 (proj2 (doc_name_never_empty (mkPayload "cube(1);" (Some ""))
                           Sample.now))).
    reflexivity.
  - apply (proj1 (proj2 (doc_name_never_empty (mkPayload "cube(1);" (Some "bracket"))
                           Sample.now))).
    + reflexivity.
    + discriminate.
Defined.

(** Both keys set, and the secret key set to the empty string. *)
Lemma startup_requires_both_keys_witness :
  (exists c, load_config Sample.environ = inr c) /\
  load_config Sample.environ_blank_secret
  = inl (RuntimeError "ONSHAPE_ACCESS_KEY and ONSHAPE_SECRET_KEY must be set in env").
Proof.
  split.
  - apply (proj1 (startup_requires_both_keys Sample.environ)).
    exists "a", "b". repeat split; discriminate.
  - apply (proj2 (startup_requires_both_keys Sample.environ_blank_secret)).
    intros c H. discriminate H.
Defined.

Lemma served_requests_witness :
  exists out,
    serve Sample.environ Sample.str_exn Sample.decode Sample.good
      (Sample.request "cube(1);") = inr out /\
    Forall (carries_credentials "https://cad.onshape.com/api/v12" "Basic YTpi")
      (calls (snd out)).
Proof.
  apply (served_requests_carry_configured_credentials Sample.environ Sample.str_exn
           Sample.decode Sample.good (Sample.request "cube(1);") "a" "b").
  - reflexivity.
  - discriminate.
  - reflexivity.
  - discriminate.
Defined.

(** Two environments that differ in a variable the header ignores. *)
Lemma auth_header_determines_keys_witness :
  Sample.environ "ONSHAPE_ACCESS_KEY" = Sample.environ_with_url "ONSHAPE_ACCESS_KEY" /\
  Sample.environ "ONSHAPE_SECRET_KEY" = Sample.environ_with_url "ONSHAPE_SECRET_KEY".
Proof.
  apply (auth_header_determines_keys Sample.environ Sample.environ_with_url
           (mkConfig "https://cad.onshape.com/api/v12" "Basic YTpi")
           (mkConfig "https://example.test/api" "Basic YTpi") "a" "a").
  - reflexivity.
  - reflexivity.
  - reflexivity.
  - reflexivity.
  - reflexivity.
  - reflexivity.
  - reflexivity.
Defined.
